(** * XPLeaderboard: ranking, view filter and refresh coordination

    A shallow embedding of [src/components/XPLeaderboard.tsx].  The React
    component is modelled as an event-driven state machine: the [useState]
    cells form a record, every callback of the component is a function on
    that record, and the [useEffect] hooks are re-run after each event
    exactly when their dependency arrays changed.  Timers and requests in
    flight, which live in the JavaScript runtime and not in the component,
    are explicit fields of the modelled world. *)

From Stdlib Require Import ZArith String Ascii DecimalString List Bool Lia Sorted.
From stdpp Require Import base list strings.

Open Scope string_scope.
Open Scope Z_scope.

(** ** JavaScript values and strings *)

(** [s.includes(t)]: [t] occurs in [s] as a contiguous run of characters. *)
Fixpoint includes (s t : string) : bool :=
  String.prefix t s ||
  match s with
  | EmptyString => false
  | String _ s' => includes s' t
  end.

(** The values stored in the fields of an entry: numbers and strings. *)
Inductive Value :=
| VNum (n : Z)
| VStr (s : string).

(** *** Numbers

    A JavaScript number is a double.  The numbers of the component are
    integers; an integer of the model stands for the double nearest to
    it, which is the integer itself up to 2^53 in magnitude. *)

(** The integer nearest to [num / den], halves to the even one. *)
Definition round_half_even (num den : Z) : Z :=
  let q := num / den in
  let r := num mod den in
  if 2 * r <? den then q
  else if den <? 2 * r then q + 1
  else if Z.even q then q else q + 1.

(** The magnitude of the double nearest to an integer of magnitude [a]:
    53 significant bits. *)
Definition double_of_magnitude (a : Z) : Z :=
  let bits := Z.log2 a + 1 in
  if bits <=? 53 then a
  else let unit := 2 ^ (bits - 53) in round_half_even a unit * unit.

(** [Number(z)]; [None] is an infinity. *)
Definition to_double (z : Z) : option Z :=
  let d := double_of_magnitude (Z.abs z) in
  if 2 ^ 1024 <=? d then None else Some (Z.sgn z * d).

Definition decimal (z : Z) : string := NilZero.string_of_int (Z.to_int z).

Fixpoint strip_zeros (s : list ascii) : list ascii :=
  match s with
  | "0"%char :: s' => strip_zeros s'
  | _ => s
  end.

Definition strip_trailing_zeros (s : string) : string :=
  string_of_list_ascii (rev (strip_zeros (rev (list_ascii_of_string s)))).

(** The decimal with the fewest significant digits, [k] or more, that
    reads back as the double [m]; of two with as few digits the nearer
    one, and of two as near the one with the even last digit.  [n] is the
    number of digits of [m]. *)
Fixpoint shortest (fuel : nat) (m n k : Z) : Z :=
  match fuel with
  | O => m
  | S fuel' =>
      let p := 10 ^ (n - k) in
      let lo := (m / p) * p in
      let hi := lo + p in
      let reads_back v := match to_double v with
                          | Some d => d =? m
                          | None => false
                          end in
      match reads_back lo, reads_back hi with
      | true, true =>
          if m - lo <? hi - m then lo
          else if hi - m <? m - lo then hi
          else if Z.even (m / p) then lo else hi
      | true, false => lo
      | false, true => hi
      | false, false => shortest fuel' m n (k + 1)
      end
  end.

(** [String(m)] for a double [m] that is an integer of 2^53 or more: the
    shortest decimal that reads back as [m], written out with its zeros
    up to 21 digits and with an exponent beyond. *)
Definition long_to_string (m : Z) : string :=
  let n := Z.of_nat (String.length (decimal m)) in
  let numeral := decimal (shortest (Z.to_nat n) m n 1) in
  let size := Z.of_nat (String.length numeral) in
  if size <=? 21 then numeral
  else
    match strip_trailing_zeros numeral with
    | String d EmptyString => String d ("e+" ++ decimal (size - 1))
    | String d rest => String d ("." ++ rest ++ "e+" ++ decimal (size - 1))
    | EmptyString => numeral
    end.

(** [String(z)] for the number [z]: below 2^53 in magnitude the decimal
    numeral of the integer (every digit is needed to read it back). *)
Definition number_to_string (z : Z) : string :=
  match to_double z with
  | None => if z <? 0 then "-Infinity" else "Infinity"
  | Some d =>
      if Z.abs d <? 2 ^ 53 then decimal d
      else if d <? 0 then "-" ++ long_to_string (- d)
      else long_to_string d
  end.

(** [String(value)] *)
Definition String_ (v : Value) : string :=
  match v with
  | VNum n => number_to_string n
  | VStr s => s
  end.

(** The numbers the statistics compute with: a double that is an integer,
    an infinity, or NaN. *)
Inductive Number :=
| Finite (z : Z)
| Infinite (negative : bool)
| NaN.

(** [Number(z)] *)
Definition Number_of (z : Z) : Number :=
  match to_double z with
  | Some d => Finite d
  | None => Infinite (z <? 0)
  end.

(** [a + b]: the exact sum of two finite numbers, rounded to the nearest
    double. *)
Definition plus (a b : Number) : Number :=
  match a, b with
  | NaN, _ | _, NaN => NaN
  | Infinite s, Infinite s' => if Bool.eqb s s' then Infinite s else NaN
  | Infinite s, Finite _ | Finite _, Infinite s => Infinite s
  | Finite x, Finite y => Number_of (x + y)
  end.

(** The exponent [e] of the double nearest to [a / n], for [a] and [n]
    positive: [2^52 <= a / (n * 2^e) < 2^53], and not below the one of the
    subnormal numbers. *)
Definition quotient_exponent (a n : Z) : Z :=
  let d := Z.log2 a - Z.log2 n in
  let at_least := if 0 <=? d then n * 2 ^ d <=? a else n <=? a * 2 ^ (- d) in
  Z.max (-1074) (if at_least then d - 52 else d - 53).

(** [Math.round(s / n)] for a finite [s] and a positive [n].  The division
    gives the double [m * 2^e] nearest to the quotient; [Math.round] then
    gives the integer nearest to that double, halves upwards. *)
Definition round_quotient (s n : Z) : Z :=
  let a := Z.abs s in
  let e := quotient_exponent a n in
  let m := Z.sgn s * round_half_even (a * 2 ^ Z.max 0 (- e)) (n * 2 ^ Z.max 0 e) in
  if 0 <=? e then m * 2 ^ e else (2 * m + 2 ^ (- e)) / 2 ^ (- e + 1).

(** JavaScript truthiness of a string: [''] is falsy. *)
Definition truthy (s : string) : bool :=
  match s with
  | EmptyString => false
  | String _ _ => true
  end.

(** [a || b] on strings. *)
Definition or_else (a b : string) : string := if truthy a then a else b.

(** ** Data model *)

(** A row of table [student_xp], as [select('*')] returns it (the columns
    the component reads). *)
Record Row := mkRow {
  row_enrollment_id : string;
  row_full_name : string;
  row_email : string;
  row_cohort_type : string;
  row_cohort_number : string;
  row_xp : Z;
  row_last_updated : string
}.

(** [LeaderboardEntry] of [@/types], with the fields in the order line 56
    creates them (the order [Object.values] enumerates). *)
Record LeaderboardEntry := mkEntry {
  rank : nat;
  enrollment_id : string;
  full_name : string;
  email : string;
  cohort_type : string;
  cohort_number : string;
  xp : Z;
  last_updated : string
}.

Record FilterOptions := mkFilters {
  cohortType : string;
  cohortNumber : string
}.

Global Instance Row_eq_dec : EqDecision Row.
Proof. solve_decision. Defined.

Global Instance LeaderboardEntry_eq_dec : EqDecision LeaderboardEntry.
Proof. solve_decision. Defined.

(** ** Ranking (lines 56-65) *)

(** The callback of [(data || []).map((entry, index) => ...)]. *)
Definition formatEntry (index : nat) (entry : Row) : LeaderboardEntry :=
  {| rank := index + 1;
     enrollment_id := row_enrollment_id entry;
     full_name := row_full_name entry;
     email := row_email entry;
     cohort_type := row_cohort_type entry;
     cohort_number := row_cohort_number entry;
     xp := row_xp entry;
     last_updated := row_last_updated entry |}.

Definition formatData (data : list Row) : list LeaderboardEntry :=
  imap formatEntry data.

(** The store's row behind an entry (the entry without its rank). *)
Definition row_of (e : LeaderboardEntry) : Row :=
  {| row_enrollment_id := enrollment_id e;
     row_full_name := full_name e;
     row_email := email e;
     row_cohort_type := cohort_type e;
     row_cohort_number := cohort_number e;
     row_xp := xp e;
     row_last_updated := last_updated e |}.

(** [Object.values(entry)] *)
Definition Object_values (e : LeaderboardEntry) : list Value :=
  [ VNum (Z.of_nat (rank e)); VStr (enrollment_id e); VStr (full_name e);
    VStr (email e); VStr (cohort_type e); VStr (cohort_number e);
    VNum (xp e); VStr (last_updated e) ].

(** ** Rendering of the rows (lines 420-431) *)

(** What one row of the table shows: the number in the rank column and the
    entry.  The rank column prints [index + 1], the index being the one of
    [filteredLeaderboard.map((entry, index) => ...)]. *)
Definition renderRows (filteredLeaderboard : list LeaderboardEntry)
  : list (nat * LeaderboardEntry) :=
  imap (fun index entry => ((index + 1)%nat, entry)) filteredLeaderboard.

Section Leaderboard.

(** Functions of the JavaScript runtime the component calls. *)

(** [String.prototype.toLowerCase] *)
Variable toLowerCase : string -> string.

(** [new Date(s).getTime()]: milliseconds since the epoch, [None] for an
    invalid date (whose time is NaN). *)
Variable parseDate : string -> option Z.

(** [new Date(t).toLocaleString()] for the clock reading [t]. *)
Variable toLocaleString : Z -> string.

(** ** The order the query asks the store for (lines 45-46) *)

Definition updated_le (a b : string) : bool :=
  match parseDate a, parseDate b with
  | Some ta, Some tb => ta <=? tb
  | _, _ => false
  end.

(** [a] may stand directly before [b]: higher [xp] first, equal [xp] by
    ascending [last_updated]. *)
Definition in_order (a b : Row) : bool :=
  (row_xp b <? row_xp a) ||
  ((row_xp a =? row_xp b) && updated_le (row_last_updated a) (row_last_updated b)).

Fixpoint is_sorted (l : list Row) : bool :=
  match l with
  | [] => true
  | a :: l' =>
      match l' with
      | [] => true
      | b :: _ => in_order a b && is_sorted l'
      end
  end.

(** ** View filter (lines 81-106) *)

Definition matchesSearch (searchTerm : string) (entry : LeaderboardEntry) : bool :=
  existsb (fun value => includes (toLowerCase (String_ value)) (toLowerCase searchTerm))
          (Object_values entry).

Definition applyView (leaderboard : list LeaderboardEntry)
           (filters : FilterOptions) (searchTerm : string)
  : list LeaderboardEntry :=
  let filtered := leaderboard in
  let filtered :=
    if truthy (cohortType filters)
    then List.filter (fun entry => bool_decide (cohort_type entry = cohortType filters)) filtered
    else filtered in
  let filtered :=
    if truthy (cohortNumber filters)
    then List.filter (fun entry => includes (cohort_number entry) (cohortNumber filters)) filtered
    else filtered in
  let filtered :=
    if truthy searchTerm
    then List.filter (matchesSearch searchTerm) filtered
    else filtered in
  filtered.


(** ** Component state *)

(** The [useState] cells.  [showFilters] and [updateProgress] only drive
    the layout and are left out.  [leaderboardRef] and [filtersRef] stand
    for the identity of the array and of the object held by the cells:
    React compares dependencies with [Object.is], and every
    [setLeaderboard] and [setFilters] of the component stores a fresh
    object. *)
Record Cells := mkCells {
  leaderboard : list LeaderboardEntry;
  leaderboardRef : nat;
  filteredLeaderboard : list LeaderboardEntry;
  filters : FilterOptions;
  filtersRef : nat;
  searchTerm : string;
  loading : bool;
  refreshing : bool;
  lastUpdated : string;
  error : string
}.

(** Who awaits a query in flight: a plain call of [fetchLeaderboard], or
    the [await fetchLeaderboard(false)] of [updateXPData] (line 155). *)
Inductive Origin := Plain | FromUpdate.

(** The component together with what the runtime holds for it. *)
Record World := mkWorld {
  cells : Cells;
  mounted : bool;
  clock : Z;                          (* Date.now(), in milliseconds *)
  isSubscribed : bool;                (* line 111 *)
  debounceTimer : option Z;           (* line 110: deadline of the pending timeout *)
  stalenessTimer : option (Z * list LeaderboardEntry);
                                      (* line 189: deadline, and the [leaderboard]
                                         the closure [checkAutoUpdate] captured *)
  inflight : list Origin;             (* queries sent to the store, not yet answered *)
  jobs : nat;                         (* requests to /api/update-xp not yet answered *)
  fetchCount : nat;                   (* history: queries sent so far *)
  updateCount : nat;                  (* history: calls of [updateXPData] so far *)
  checkCount : nat                    (* history: runs of [checkAutoUpdate] so far *)
}.

Definition with_cells (f : Cells -> Cells) (w : World) : World :=
  let 'mkWorld c m t sub db st fl j fc uc cc := w in
  mkWorld (f c) m t sub db st fl j fc uc cc.

(** A state setter of an unmounted component does nothing. *)
Definition setState (f : Cells -> Cells) (w : World) : World :=
  if mounted w then with_cells f w else w.

Definition setLeaderboard (v : list LeaderboardEntry) : World -> World :=
  setState (fun c =>
    let 'mkCells _ lr fl f fr s l r lu e := c in
    mkCells v (S lr) fl f fr s l r lu e).

Definition setFilteredLeaderboard (v : list LeaderboardEntry) : World -> World :=
  setState (fun c =>
    let 'mkCells lb lr _ f fr s l r lu e := c in
    mkCells lb lr v f fr s l r lu e).

Definition setFilters (upd : FilterOptions -> FilterOptions) : World -> World :=
  setState (fun c =>
    let 'mkCells lb lr fl f fr s l r lu e := c in
    mkCells lb lr fl (upd f) (S fr) s l r lu e).

Definition setSearchTerm (v : string) : World -> World :=
  setState (fun c =>
    let 'mkCells lb lr fl f fr _ l r lu e := c in
    mkCells lb lr fl f fr v l r lu e).

Definition setLoading (v : bool) : World -> World :=
  setState (fun c =>
    let 'mkCells lb lr fl f fr s _ r lu e := c in
    mkCells lb lr fl f fr s v r lu e).

Definition setRefreshing (v : bool) : World -> World :=
  setState (fun c =>
    let 'mkCells lb lr fl f fr s l _ lu e := c in
    mkCells lb lr fl f fr s l v lu e).

Definition setLastUpdated (v : string) : World -> World :=
  setState (fun c =>
    let 'mkCells lb lr fl f fr s l r _ e := c in
    mkCells lb lr fl f fr s l r v e).

Definition setError (v : string) : World -> World :=
  setState (fun c =>
    let 'mkCells lb lr fl f fr s l r lu _ := c in
    mkCells lb lr fl f fr s l r lu v).

Definition set_clock (t : Z) (w : World) : World :=
  let 'mkWorld c m _ sub db st fl j fc uc cc := w in
  mkWorld c m t sub db st fl j fc uc cc.

Definition set_debounceTimer (v : option Z) (w : World) : World :=
  let 'mkWorld c m t sub _ st fl j fc uc cc := w in
  mkWorld c m t sub v st fl j fc uc cc.

Definition set_stalenessTimer (v : option (Z * list LeaderboardEntry)) (w : World) : World :=
  let 'mkWorld c m t sub db _ fl j fc uc cc := w in
  mkWorld c m t sub db v fl j fc uc cc.

Definition set_inflight (v : list Origin) (w : World) : World :=
  let 'mkWorld c m t sub db st _ j fc uc cc := w in
  mkWorld c m t sub db st v j fc uc cc.

Definition set_jobs (v : nat) (w : World) : World :=
  let 'mkWorld c m t sub db st fl _ fc uc cc := w in
  mkWorld c m t sub db st fl v fc uc cc.

(** The query of lines 42-46 leaves for the store. *)
Definition send_query (o : Origin) (w : World) : World :=
  let 'mkWorld c m t sub db st fl j fc uc cc := w in
  mkWorld c m t sub db st (fl ++ [o]) j (S fc) uc cc.

(** The request of line 145 leaves for the recomputation job. *)
Definition send_job (w : World) : World :=
  let 'mkWorld c m t sub db st fl j fc uc cc := w in
  mkWorld c m t sub db st fl (S j) fc (S uc) cc.

Definition count_check (w : World) : World :=
  let 'mkWorld c m t sub db st fl j fc uc cc := w in
  mkWorld c m t sub db st fl j fc uc (S cc).

(** ** Effects *)

(** First dependency of the staleness effect (line 191):
    [leaderboard.length > 0 ? leaderboard[0]?.last_updated : null]. *)
Definition stalenessDep (c : Cells) : option string :=
  match leaderboard c with
  | [] => None
  | e :: _ => Some (last_updated e)
  end.

(** The filter effect (lines 81-106). *)
Definition filterEffect (w : World) : World :=
  setFilteredLeaderboard
    (applyView (leaderboard (cells w)) (filters (cells w)) (searchTerm (cells w))) w.

(** The staleness effect (lines 175-191), run after its cleanup. *)
Definition stalenessEffect (w : World) : World :=
  match leaderboard (cells w) with
  | [] => w                                            (* line 176 *)
  | _ :: _ => set_stalenessTimer (Some (clock w + 3000, leaderboard (cells w))) w
  end.

(** After a callback took the component from [old] to [new], React
    renders and runs, in the order of the source, the effects whose
    dependencies changed, each after the cleanup its last run returned.
    [fetchLeaderboard] and [updateXPData] are [useCallback]s that never
    change, so their place in a dependency array plays no part.

    React commits the render with the cells as the callback left them
    ([new]) before it runs the effects, and runs the effects before it
    handles any other event: [commit] gives the state the next event
    finds, the settled one.  The render in between, which still shows the
    view of before, is the one of [callback] below. *)
Definition commit (old new : World) : World :=
  if negb (mounted new) then new else
  let w := new in
  (* deps [leaderboard, filters, searchTerm] *)
  let w :=
    if bool_decide (leaderboardRef (cells old) = leaderboardRef (cells new)) &&
       bool_decide (filtersRef (cells old) = filtersRef (cells new)) &&
       bool_decide (searchTerm (cells old) = searchTerm (cells new))
    then w else filterEffect w in
  (* deps [fetchLeaderboard, loading]: the cleanup of lines 132-136 clears
     the debounce timer of the closure it belongs to, and the effect
     subscribes again with a fresh, unset timer *)
  let w :=
    if bool_decide (loading (cells old) = loading (cells new))
    then w else set_debounceTimer None w in
  (* deps [leaderboard.length > 0 ? leaderboard[0]?.last_updated : null, updateXPData] *)
  let w :=
    if bool_decide (stalenessDep (cells old) = stalenessDep (cells new))
    then w else stalenessEffect (set_stalenessTimer None w) in
  w.

(** ** Callbacks *)

(** What the store answers to the query: [{ data, error: null }], where
    [data] may be [null], or an error, either returned as [error] or
    thrown by the [await]; [isError] is [err instanceof Error]. *)
Inductive QueryResult :=
| QueryData (data : option (list Row))
| QueryError (isError : bool) (message : string).

(** [fetchLeaderboard(showLoading)] up to its [await] (lines 36-46). *)
Definition fetchLeaderboard (showLoading : bool) (o : Origin) (w : World) : World :=
  let w := if showLoading then setLoading true w else w in
  let w := setError "" w in
  send_query o w.

(** [fetchLeaderboard] from the answer of the store on (lines 48-77). *)
Definition fetchLeaderboard_resume (r : QueryResult) (w : World) : World :=
  let w :=
    match r with
    | QueryData data =>
        let formattedData := formatData (default [] data) in
        let w := setLeaderboard formattedData w in
        match data with
        | Some (_ :: _) => setLastUpdated (toLocaleString (clock w)) w
        | _ => w
        end
    | QueryError isError message =>
        setError (if isError then message else "Failed to fetch leaderboard") w
    end in
  setLoading false w.

(** What comes back from [/api/update-xp]: a rejected [fetch] or
    [response.json()], a response that is not [ok], or the parsed body
    with the truthiness of [result.success] and [result.error] (empty
    when absent). *)
Inductive JobResult :=
| JobThrown (isError : bool) (message : string)
| JobNotOk (status : Z)
| JobJson (success : bool) (err : string).

(** [updateXPData] up to its first [await] (lines 139-145). *)
Definition updateXPData (w : World) : World :=
  let w := setRefreshing true w in
  let w := setError "" w in
  send_job w.

(** The [catch] and [finally] of [updateXPData] (lines 160-166). *)
Definition updateXPData_catch (isError : bool) (message : string) (w : World) : World :=
  setError (if isError then message else "Failed to update XP data") w.

Definition updateXPData_finally (w : World) : World :=
  setRefreshing false w.

(** [updateXPData] from the answer of the job to its second [await]
    (lines 147-159). *)
Definition updateXPData_resume (r : JobResult) (w : World) : World :=
  match r with
  | JobThrown isError message =>
      updateXPData_finally (updateXPData_catch isError message w)
  | JobNotOk status =>
      updateXPData_finally
        (updateXPData_catch true ("HTTP error! status: " ++ String_ (VNum status)) w)
  | JobJson true _ =>
      fetchLeaderboard false FromUpdate w
  | JobJson false err =>
      updateXPData_finally (updateXPData_catch true (or_else err "XP update failed") w)
  end.

(** [updateXPData] after [await fetchLeaderboard(false)], which never
    throws (lines 156, 163-166). *)
Definition updateXPData_after_fetch (w : World) : World :=
  updateXPData_finally (setLastUpdated (toLocaleString (clock w)) w).

(** [checkAutoUpdate] (lines 178-186) over the [leaderboard] its closure
    holds.  [hoursSinceUpdate >= 24] is decided on the milliseconds: the
    quotient by [1000 * 60 * 60] is at least 24 exactly when the
    difference is at least [24 * (1000 * 60 * 60)], and an invalid date
    makes the quotient NaN, which is not [>= 24]. *)
Definition lastUpdate_of (captured : list LeaderboardEntry) : option Z :=
  match captured with
  | e :: _ => if truthy (last_updated e) then parseDate (last_updated e) else Some 0
  | [] => Some 0
  end.

Definition stale (now : Z) (lastUpdate : option Z) : bool :=
  match lastUpdate with
  | Some t => 24 * (1000 * 60 * 60) <=? now - t
  | None => false
  end.

Definition checkAutoUpdate (captured : list LeaderboardEntry) (w : World) : World :=
  let w := count_check w in
  if stale (clock w) (lastUpdate_of captured) then updateXPData w else w.

(** The handler of the change notifications (lines 117-128). *)
Definition onChange (w : World) : World :=
  if isSubscribed w && negb (loading (cells w))
  then set_debounceTimer (Some (clock w + 2000)) w
  else w.

(** The callback of the debounce timer (lines 122-126). *)
Definition debounceFired (w : World) : World :=
  if isSubscribed w then fetchLeaderboard false Plain w else w.

(** Unmount: the cleanups of lines 132-136 and 190. *)
Definition unmount (w : World) : World :=
  let 'mkWorld c _ t _ _ _ fl j fc uc cc := w in
  mkWorld c false t false None None fl j fc uc cc.

(** ** Events *)

Inductive Event :=
| ClickReload                                   (* line 278 *)
| ClickRefreshXP                                (* line 286 *)
| Notification                                  (* line 117 *)
| Advance (d : N)                               (* [d] milliseconds pass *)
| QueryResolved (i : nat) (r : QueryResult)     (* the store answers query [i] in flight *)
| JobResolved (r : JobResult)                   (* the job answers *)
| ChangeCohortType (v : string)                 (* line 308 *)
| ChangeCohortNumber (v : string)               (* line 325 *)
| ChangeSearch (v : string)                     (* line 339 *)
| Unmount.

(** The timer due first by time [target], if any. *)
Inductive Timer := DebounceT (t : Z) | StalenessT (t : Z) (captured : list LeaderboardEntry).

Definition next_timer (target : Z) (w : World) : option Timer :=
  let db := match debounceTimer w with
            | Some t => if t <=? target then Some t else None
            | None => None
            end in
  let st := match stalenessTimer w with
            | Some (t, cap) => if t <=? target then Some (t, cap) else None
            | None => None
            end in
  match db, st with
  | Some t, None => Some (DebounceT t)
  | None, Some (t, cap) => Some (StalenessT t cap)
  | Some t, Some (t', cap) => if t <? t' then Some (DebounceT t) else Some (StalenessT t' cap)
  | None, None => None
  end.

(** Runs the callback of the timer due first, at its deadline. *)
Definition fire_next (target : Z) (w : World) : World :=
  match next_timer target w with
  | Some (DebounceT t) =>
      let w1 := set_clock (Z.max (clock w) t) (set_debounceTimer None w) in
      commit w1 (debounceFired w1)
  | Some (StalenessT t cap) =>
      let w1 := set_clock (Z.max (clock w) t) (set_stalenessTimer None w) in
      commit w1 (checkAutoUpdate cap w1)
  | None => w
  end.

(** [d] milliseconds pass.  The component has two timer slots and no
    timer callback arms a timer, so two rounds fire all that is due. *)
Definition advance (d : N) (w : World) : World :=
  let target := clock w + Z.of_N d in
  set_clock target (fire_next target (fire_next target w)).

(** One event.  A click on a disabled button does nothing: Reload has
    [disabled={loading}], Refresh XP has [disabled={refreshing || loading}]. *)
Definition step (e : Event) (w : World) : World :=
  match e with
  | ClickReload =>
      if mounted w && negb (loading (cells w))
      then commit w (fetchLeaderboard true Plain w) else w
  | ClickRefreshXP =>
      if mounted w && negb (refreshing (cells w) || loading (cells w))
      then commit w (updateXPData w) else w
  | Notification => onChange w
  | Advance d => advance d w
  | QueryResolved i r =>
      match inflight w !! i with
      | Some o =>
          let w1 := set_inflight (delete i (inflight w)) w in
          let w2 := fetchLeaderboard_resume r w1 in
          let w3 := match o with
                    | Plain => w2
                    | FromUpdate => updateXPData_after_fetch w2
                    end in
          commit w w3
      | None => w
      end
  | JobResolved r =>
      match jobs w with
      | S j => commit w (updateXPData_resume r (set_jobs j w))
      | O => w
      end
  | ChangeCohortType v =>
      commit w (setFilters (fun prev => mkFilters v (cohortNumber prev)) w)
  | ChangeCohortNumber v =>
      commit w (setFilters (fun prev => mkFilters (cohortType prev) v) w)
  | ChangeSearch v => commit w (setSearchTerm v w)
  | Unmount => unmount w
  end.

Definition run (events : list Event) (w : World) : World :=
  fold_left (fun w e => step e w) events w.

(** The component once mounted at time [t0]: the initial values of the
    cells (lines 20-32), then the effects in source order.  The filter
    effect stores the empty view, the subscription effect subscribes, the
    initial load (line 171) calls [fetchLeaderboard()], and the staleness
    effect returns at line 176. *)
Definition initialCells : Cells :=
  {| leaderboard := []; leaderboardRef := 0;
     filteredLeaderboard := [];
     filters := mkFilters "" ""; filtersRef := 0;
     searchTerm := "";
     loading := true; refreshing := false;
     lastUpdated := ""; error := "" |}.

Definition mount (t0 : Z) : World :=
  let w := {| cells := initialCells; mounted := true; clock := t0;
              isSubscribed := true; debounceTimer := None;
              stalenessTimer := None; inflight := []; jobs := 0;
              fetchCount := 0; updateCount := 0; checkCount := 0 |} in
  let w := filterEffect w in
  let w := fetchLeaderboard true Plain w in
  stalenessEffect w.

End Leaderboard.

(** ** A concrete runtime for the examples *)

(** [toLowerCase] on the letters A-Z; other characters are kept. *)
Definition lower_char (c : ascii) : ascii :=
  let n := nat_of_ascii c in
  if (65 <=? n)%nat && (n <=? 90)%nat then ascii_of_nat (n + 32) else c.

Fixpoint lower_ascii (s : string) : string :=
  match s with
  | EmptyString => EmptyString
  | String c s' => String (lower_char c) (lower_ascii s')
  end.

(** [Date] parsing on the ISO timestamps the examples use. *)
Definition parseDate_ex (s : string) : option Z :=
  if bool_decide (s = "2025-01-01T00:00:00Z") then Some 1735689600000
  else if bool_decide (s = "2025-01-02T00:00:00Z") then Some 1735776000000
  else if bool_decide (s = "2025-01-09T01:00:00Z") then Some 1736384400000
  else None.

(** A stand-in for the locale format: the milliseconds in decimal. *)
Definition toLocaleString_ex (t : Z) : string := String_ (VNum t).

(** 2025-01-10T00:00:00Z *)
Definition jan10 : Z := 1736467200000.

Definition row_a (xp : Z) (updated : string) : Row :=
  mkRow "E1" "Asha" "asha@example.com" "MERN" "2.0" xp updated.

Definition row_b (xp : Z) (updated : string) : Row :=
  mkRow "E2" "Bela" "bela@example.com" "Basic" "1.0" xp updated.

Definition step_ex := step lower_ascii parseDate_ex toLocaleString_ex.
Definition run_ex := run lower_ascii parseDate_ex toLocaleString_ex.
Definition mount_ex := mount lower_ascii.

(** The component after the store answered the initial load with no
    record: mounted, idle, nothing in flight. *)
Definition idle_ex : World :=
  run_ex [QueryResolved 0 (QueryData (Some []))] (mount_ex jan10).

(** ** The claims as the specification words them *)

(** [t] occurs in [s]: some characters, then [t], then some more. *)
Definition substring_of (t s : string) : Prop :=
  exists pre post, s = String.append pre (String.append t post).

(** The string forms of the fields of an entry, one by one: rank,
    enrollment id, name, e-mail, cohort type, cohort number, score and
    update time. *)
Definition field_strings (entry : LeaderboardEntry) : list string :=
  [ String_ (VNum (Z.of_nat (rank entry)));
    enrollment_id entry;
    full_name entry;
    email entry;
    cohort_type entry;
    cohort_number entry;
    String_ (VNum (xp entry));
    last_updated entry ].

Section Criteria.

Variable toLowerCase : string -> string.

(** The entry satisfies every criterion that is not empty: the cohort type
    by equality, the cohort number by containment, the search term by
    containment, letter case aside, in the string form of some field. *)
Definition Meets (filters : FilterOptions) (searchTerm : string)
           (entry : LeaderboardEntry) : Prop :=
  (cohortType filters = "" \/ cohort_type entry = cohortType filters) /\
  (cohortNumber filters = "" \/ substring_of (cohortNumber filters) (cohort_number entry)) /\
  (searchTerm = "" \/
   exists field, In field (field_strings entry) /\
     substring_of (toLowerCase searchTerm) (toLowerCase field)).

End Criteria.

(** The rank column shows, for every row, the [rank] the entry holds. *)
Definition shows_canonical_rank (rows : list (nat * LeaderboardEntry)) : Prop :=
  Forall (fun row => fst row = rank (snd row)) rows.

(** The ranking step as the specification describes it: whatever order
    the store answered in, the entries come out in the order of the query
    and carry the ranks 1..N. *)
Definition ranked_in_query_order (parseDate : string -> option Z) (data : list Row) : Prop :=
  is_sorted parseDate (map row_of (formatData data)) = true /\
  map rank (formatData data) = seq 1 (length data).

(** A burst of change notifications: one, then after each gap another. *)
Definition burst (gaps : list N) : list Event :=
  Notification :: flat_map (fun g => [Advance g; Notification]) gaps.

(** The message an update cycle ends with when the job did not succeed:
    the message of what was thrown (or a fixed text for a thrown value
    that is no [Error]), the status of a response that is not [ok], the
    error text of a body that reports no success, or a fixed text when
    that body has none.  [None] when the job succeeded. *)
Definition job_failure (r : JobResult) : option string :=
  match r with
  | JobThrown true message => Some message
  | JobThrown false _ => Some "Failed to update XP data"
  | JobNotOk status => Some ("HTTP error! status: " ++ String_ (VNum status))
  | JobJson true _ => None
  | JobJson false EmptyString => Some "XP update failed"
  | JobJson false (String c err) => Some (String c err)
  end.

(** ** Frames

    What the effects leave alone: every cell but the filtered view, and
    all of the runtime but the two timers. *)
Definition same_but_view (c c' : Cells) : Prop :=
  leaderboard c' = leaderboard c /\ leaderboardRef c' = leaderboardRef c /\
  filters c' = filters c /\ filtersRef c' = filtersRef c /\
  searchTerm c' = searchTerm c /\ loading c' = loading c /\
  refreshing c' = refreshing c /\ lastUpdated c' = lastUpdated c /\
  error c' = error c.

Definition same_but_timers (w w' : World) : Prop :=
  mounted w' = mounted w /\ clock w' = clock w /\
  isSubscribed w' = isSubscribed w /\ inflight w' = inflight w /\
  jobs w' = jobs w /\ fetchCount w' = fetchCount w /\
  updateCount w' = updateCount w /\ checkCount w' = checkCount w.

(** ** Rendering (lines 193-217, 349-503) *)

Inductive Icon := Crown | Medal | Award | Trophy.

(** [getRankIcon] (lines 193-204), by the component it returns. *)
Definition getRankIcon (rank : nat) : Icon :=
  match rank with
  | 1%nat => Crown
  | 2%nat => Medal
  | 3%nat => Award
  | _ => Trophy
  end.

(** [getRankStyle] (lines 206-217). *)
Definition getRankStyle (rank : nat) : string :=
  match rank with
  | 1%nat => "gradient-gold glow-gold text-white"
  | 2%nat => "gradient-silver glow-silver text-white"
  | 3%nat => "gradient-bronze glow-bronze text-white"
  | _ => "bg-muted/30 hover:bg-muted/50 text-foreground"
  end.

(** The decoration of the rows of the table (lines 420-431): for each row
    its style, its icon and the entry it shows. *)
Definition decorateRows (filteredLeaderboard : list LeaderboardEntry)
  : list (string * Icon * LeaderboardEntry) :=
  imap (fun index entry =>
          (getRankStyle (index + 1), getRankIcon (index + 1), entry))
       filteredLeaderboard.

(** The blocks below the header and the filter form, in the order of the
    source (lines 349, 394, 401, 404, 469, 482). *)
Inductive Panel :=
| StatsCards | ErrorMessage | LoadingAnimation
| LeaderboardTable | EmptyState | NoResults.

Definition nonempty {A} (l : list A) : bool := (0 <? length l)%nat.

Definition show (cond : bool) (p : Panel) : list Panel :=
  if cond then [p] else [].

Definition render (c : Cells) : list Panel :=
  (show (negb (loading c) && nonempty (filteredLeaderboard c)) StatsCards ++
   show (truthy (error c)) ErrorMessage ++
   show (loading c) LoadingAnimation ++
   show (negb (loading c) && nonempty (filteredLeaderboard c)) LeaderboardTable ++
   show (negb (loading c) && negb (nonempty (leaderboard c)) && negb (truthy (error c)))
        EmptyState ++
   show (negb (loading c) && nonempty (leaderboard c)
         && negb (nonempty (filteredLeaderboard c))) NoResults)%list.

(** The figures of the stats cards (lines 356-386), before [formatXP]
    prints them. *)

(** [filters.cohortType || filters.cohortNumber || searchTerm] *)
Definition criteriaActive (c : Cells) : bool :=
  truthy (cohortType (filters c)) || truthy (cohortNumber (filters c))
  || truthy (searchTerm c).

(** [filteredLeaderboard[0] ? formatXP(filteredLeaderboard[0].xp) : '0']:
    the number handed to [formatXP], if any. *)
Definition topXP (filteredLeaderboard : list LeaderboardEntry) : option Z :=
  match filteredLeaderboard with
  | e :: _ => Some (xp e)
  | [] => None
  end.

(** [filteredLeaderboard.reduce((sum, entry) => sum + entry.xp, 0)] *)
Definition sumXP (filteredLeaderboard : list LeaderboardEntry) : Number :=
  fold_left (fun sum entry => plus sum (Number_of (xp entry)))
            filteredLeaderboard (Finite 0).

(** [Math.round(sum / length)] for a view that is not empty, whose length
    is a positive integer below 2^32.  An infinite or undefined sum stays
    what it is. *)
Definition avgXP (filteredLeaderboard : list LeaderboardEntry) : option Number :=
  match filteredLeaderboard with
  | [] => None
  | _ :: _ =>
      Some match sumXP filteredLeaderboard with
           | Finite s => Finite (round_quotient s (Z.of_nat (length filteredLeaderboard)))
           | other => other
           end
  end.

(** The handler of "Clear All Filters" (lines 492-495), followed by the
    effects. *)
Definition clearAllFilters (toLowerCase : string -> string) (w : World) : World :=
  commit toLowerCase w (setSearchTerm "" (setFilters (fun _ => mkFilters "" "") w)).

(** [a] may stand before [b] in the order of the query. *)
Definition precedes (parseDate : string -> option Z) (a b : Row) : Prop :=
  in_order parseDate a b = true.

(** ** What holds of every state the component reaches *)

(** [leaderboard[0]?.last_updated] of a dataset. *)
Definition topStamp (l : list LeaderboardEntry) : option string :=
  match l with
  | [] => None
  | e :: _ => Some (last_updated e)
  end.

Record Inv (toLowerCase : string -> string) (w : World) : Prop := mkInv {
  (* the view is the dataset under the criteria *)
  inv_view : filteredLeaderboard (cells w)
             = applyView toLowerCase (leaderboard (cells w)) (filters (cells w))
                 (searchTerm (cells w));
  (* the dataset is some answer of the store, ranked *)
  inv_ranked : exists data, leaderboard (cells w) = formatData data;
  (* the subscription lives as long as the component *)
  inv_subscribed : isSubscribed w = mounted w;
  (* no debounce timer runs while the loading indicator is on *)
  inv_loading : loading (cells w) = true -> debounceTimer w = None;
  (* no timer outlives the component *)
  inv_unmounted : mounted w = false ->
                  debounceTimer w = None /\ stalenessTimer w = None;
  (* a pending staleness check looks at the timestamp of the current top entry *)
  inv_staleness : forall t captured, stalenessTimer w = Some (t, captured) ->
                  captured <> [] /\ topStamp captured = topStamp (leaderboard (cells w))
}.

(** What a callback, before the effects run, may have done to the state. *)
Definition handled (old new : World) : Prop :=
  mounted new = mounted old /\ isSubscribed new = isSubscribed old /\
  debounceTimer new = debounceTimer old /\ stalenessTimer new = stalenessTimer old /\
  filteredLeaderboard (cells new) = filteredLeaderboard (cells old) /\
  (leaderboardRef (cells new) = leaderboardRef (cells old) ->
   leaderboard (cells new) = leaderboard (cells old)) /\
  ((exists data, leaderboard (cells old) = formatData data) ->
   exists data, leaderboard (cells new) = formatData data) /\
  (filtersRef (cells new) = filtersRef (cells old) ->
   filters (cells new) = filters (cells old)) /\
  (mounted old = false -> cells new = cells old).

(** The state the callback of an event leaves, before the effects run:
    the cells of the render React commits first.  [None] for a click on a
    disabled button and an answer nobody waits for, which run no callback,
    and for the events whose callback stores nothing an effect depends on
    (a notification, a timer that fires, the unmount). *)
Definition callback (toLocaleString : Z -> string) (e : Event) (w : World)
  : option World :=
  match e with
  | ClickReload =>
      if mounted w && negb (loading (cells w))
      then Some (fetchLeaderboard true Plain w) else None
  | ClickRefreshXP =>
      if mounted w && negb (refreshing (cells w) || loading (cells w))
      then Some (updateXPData w) else None
  | QueryResolved i r =>
      match inflight w !! i with
      | Some o =>
          let w1 := set_inflight (delete i (inflight w)) w in
          let w2 := fetchLeaderboard_resume toLocaleString r w1 in
          Some (match o with
                | Plain => w2
                | FromUpdate => updateXPData_after_fetch toLocaleString w2
                end)
      | None => None
      end
  | JobResolved r =>
      match jobs w with
      | S j => Some (updateXPData_resume r (set_jobs j w))
      | O => None
      end
  | ChangeCohortType v =>
      Some (setFilters (fun prev => mkFilters v (cohortNumber prev)) w)
  | ChangeCohortNumber v =>
      Some (setFilters (fun prev => mkFilters (cohortType prev) v) w)
  | ChangeSearch v => Some (setSearchTerm v w)
  | Notification | Advance _ | Unmount => None
  end.

(** The blocks of which the page shows one at a time. *)
Definition is_main (p : Panel) : bool :=
  match p with
  | LoadingAnimation | LeaderboardTable | EmptyState | NoResults => true
  | StatsCards | ErrorMessage => false
  end.

(** The criteria and the search term an edit of the filter form asks for
    (lines 308, 325, 339); [None] for the events that are no such edit. *)
Definition criteria_after (e : Event) (c : Cells) : option (FilterOptions * string) :=
  match e with
  | ChangeCohortType v => Some (mkFilters v (cohortNumber (filters c)), searchTerm c)
  | ChangeCohortNumber v => Some (mkFilters (cohortType (filters c)) v, searchTerm c)
  | ChangeSearch v => Some (filters c, v)
  | _ => None
  end.

(** The age test of [checkAutoUpdate] in words: the top entry has no
    timestamp and the clock reads at least a day past the epoch, or it has
    one that parses and lies at least 24 hours back. *)
Definition a_day_old (parseDate : string -> option Z) (now : Z)
           (e : LeaderboardEntry) : Prop :=
  (last_updated e = "" /\ 86400000 <= now) \/
  (exists t0, last_updated e <> "" /\ parseDate (last_updated e) = Some t0 /\
              86400000 <= now - t0).

(** An unmounted component with cells [c0], no timer, and at most [n]
    queries sent or still to be sent by the update requests in flight. *)
Definition torn_down (c0 : Cells) (n : nat) (w : World) : Prop :=
  mounted w = false /\ isSubscribed w = false /\
  debounceTimer w = None /\ stalenessTimer w = None /\
  cells w = c0 /\ (fetchCount w + jobs w <= n)%nat.

(** * Properties *)

(** ** Strings *)

Lemma truthy_false s : truthy s = false <-> s = "".
Proof. destruct s; simpl; split; congruence. Qed.

Lemma prefix_spec t s :
  String.prefix t s = true <-> exists post, s = String.append t post.
Proof.
  revert s. induction t as [|c t IH]; intros s; simpl.
  - split; [intros _; exists s; reflexivity | intros _; by destruct s].
  - destruct s as [|c' s]; simpl.
    + split; [discriminate | intros [post H]; discriminate].
    + destruct (Ascii.ascii_dec c c') as [->|Hne].
      * rewrite IH. split; intros [post H]; exists post; [by rewrite H | by injection H].
      * split; [discriminate | intros [post H]; injection H; congruence].
Qed.

Lemma includes_spec s t : includes s t = true <-> substring_of t s.
Proof.
  unfold substring_of. induction s as [|c s IH]; cbn [includes].
  - rewrite orb_false_r, prefix_spec. split.
    + intros [post H]. exists "", post. exact H.
    + intros [pre [post H]]. destruct pre; [exists post; exact H | discriminate].
  - rewrite orb_true_iff, prefix_spec, IH. split.
    + intros [[post H] | [pre [post H]]].
      * exists "", post. exact H.
      * exists (String c pre), post. simpl. by rewrite H.
    + intros [pre [post H]]. destruct pre as [|c' pre]; simpl in H.
      * left. exists post. exact H.
      * right. exists pre, post. by injection H.
Qed.

(** ** Numbers *)

(** Up to 2^53 in magnitude an integer is a double. *)
Lemma to_double_safe z : Z.abs z < 2 ^ 53 -> to_double z = Some z.
Proof.
  intros Hn. unfold to_double, double_of_magnitude.
  assert (Z.log2 (Z.abs z) + 1 <= 53) as Hbits.
  { destruct (Z.eq_dec (Z.abs z) 0) as [->|Hne]; [cbn; lia|].
    assert (Z.log2 (Z.abs z) < 53); [|lia].
    apply Z.log2_lt_pow2; lia. }
  destruct (Z.leb_spec (Z.log2 (Z.abs z) + 1) 53); [|lia].
  assert (Z.abs z < 2 ^ 1024)
    by (eapply Z.lt_trans; [exact Hn|]; by apply Z.pow_lt_mono_r).
  destruct (Z.leb_spec (2 ^ 1024) (Z.abs z)); [lia|].
  f_equal. rewrite Z.mul_comm. apply Z.abs_sgn.
Qed.

(** The nearest integer is monotone in the quotient. *)
Lemma round_half_even_ge num den A :
  0 < den -> A * den <= num -> A <= round_half_even num den.
Proof.
  intros Hd H. unfold round_half_even.
  assert (A <= num / den) by (apply Z.div_le_lower_bound; lia).
  repeat case_match; lia.
Qed.

Lemma round_half_even_le num den C :
  0 < den -> 2 * num < (2 * C + 1) * den -> round_half_even num den <= C.
Proof.
  intros Hd H. unfold round_half_even.
  pose proof (Z.div_mod num den ltac:(lia)) as Hdm.
  pose proof (Z.mod_pos_bound num den Hd) as Hr.
  set (q := num / den) in *. set (r := num mod den) in *.
  assert (q <= C) by nia.
  destruct (Z.ltb_spec (2 * r) den); [lia|].
  assert (q < C) by nia.
  repeat case_match; lia.
Qed.

(** Below 2^52 the quotient has binary digits after the point to spare. *)
Lemma quotient_exponent_small a n :
  0 < a < 2 ^ 52 -> 0 < n < 2 ^ 52 ->
  let e := quotient_exponent a n in
  e < 0 /\ n * 2 ^ 52 <= a * 2 ^ (- e).
Proof.
  intros Ha Hn. unfold quotient_exponent.
  pose proof (Z.log2_spec a ltac:(lia)) as [La1 La2].
  pose proof (Z.log2_spec n ltac:(lia)) as [Ln1 Ln2].
  pose proof (Z.log2_nonneg a) as La0. pose proof (Z.log2_nonneg n) as Ln0.
  assert (Z.log2 a < 52) as La3 by (apply Z.log2_lt_pow2; lia).
  assert (Z.log2 n < 52) as Ln3 by (apply Z.log2_lt_pow2; lia).
  set (la := Z.log2 a) in *. set (ln := Z.log2 n) in *.
  set (d := la - ln).
  destruct (if 0 <=? d then n * 2 ^ d <=? a else n <=? a * 2 ^ (- d)) eqn:Hat.
  - rewrite Z.max_r by lia. split; [lia|].
    replace (- (d - 52)) with (52 - d) by lia.
    destruct (Z.leb_spec 0 d).
    + apply Z.leb_le in Hat.
      replace (2 ^ 52) with (2 ^ d * 2 ^ (52 - d))
        by (rewrite <- Z.pow_add_r by lia; f_equal; lia).
      assert (0 < 2 ^ (52 - d)) by (apply Z.pow_pos_nonneg; lia).
      nia.
    + apply Z.leb_le in Hat.
      replace (52 - d) with (- d + 52) by lia.
      rewrite Z.pow_add_r by lia. nia.
  - rewrite Z.max_r by lia. split; [lia|].
    replace (- (d - 53)) with (53 - d) by lia.
    assert (2 ^ la * 2 ^ (53 - d) = 2 ^ 52 * 2 ^ (ln + 1)) as Hp.
    { rewrite <- !Z.pow_add_r by lia. f_equal. lia. }
    assert (0 < 2 ^ (53 - d)) by (apply Z.pow_pos_nonneg; lia).
    nia.
Qed.

(** For a sum below 2^52 the double quotient rounds as the exact one. *)
Lemma round_quotient_exact s n :
  0 <= s < 2 ^ 52 -> 0 < n -> (s = 0 \/ n < 2 ^ 52) ->
  round_quotient s n = (2 * s + n) / (2 * n).
Proof.
  intros Hs Hn Hsn. unfold round_quotient.
  destruct (Z.eq_dec s 0) as [->|Hne].
  - change (Z.abs 0) with 0. change (Z.sgn 0) with 0.
    rewrite Z.mul_0_l, (Z.div_small (2 * 0 + n)) by lia.
    destruct (Z.leb_spec 0 (quotient_exponent 0 n)); [reflexivity|].
    apply Z.div_small. rewrite Z.pow_add_r by lia.
    assert (0 < 2 ^ (- quotient_exponent 0 n)) by (apply Z.pow_pos_nonneg; lia).
    lia.
  - destruct Hsn as [?|Hn2]; [done|].
    rewrite Z.abs_eq, Z.sgn_pos, Z.mul_1_l by lia.
    destruct (quotient_exponent_small s n ltac:(lia) ltac:(lia)) as [He Hm].
    set (e := quotient_exponent s n) in *.
    destruct (Z.leb_spec 0 e); [lia|].
    rewrite (Z.max_r 0 (- e)), (Z.max_l 0 e), Z.pow_0_r, Z.mul_1_r by lia.
    set (k := - e) in *.
    assert (0 < 2 ^ k) as Hk by (apply Z.pow_pos_nonneg; lia).
    assert (2 ^ k = 2 * 2 ^ (k - 1)) as Hk2
      by (rewrite <- Z.pow_succ_r by lia; f_equal; lia).
    assert (0 < 2 ^ (k - 1)) as Hk1 by (apply Z.pow_pos_nonneg; lia).
    assert (n < 2 ^ k) as Hnk by nia.
    set (T := (2 * s + n) / (2 * n)).
    pose proof (Z.div_mod (2 * s + n) (2 * n) ltac:(lia)) as Hdm.
    pose proof (Z.mod_pos_bound (2 * s + n) (2 * n) ltac:(lia)) as Hr.
    fold T in Hdm.
    set (m := round_half_even (s * 2 ^ k) n).
    assert (2 ^ (k - 1) * (2 * T - 1) <= m) as Hlo.
    { apply round_half_even_ge; [lia|]. nia. }
    assert (m <= 2 ^ (k - 1) * (2 * T + 1) - 1) as Hhi.
    { apply round_half_even_le; [lia|]. nia. }
    symmetry. apply (Z.div_unique _ _ T (2 * m + 2 ^ k - 2 ^ (k + 1) * T)).
    + left. rewrite Z.pow_add_r by lia. nia.
    + lia.
Qed.

(** Up to 2^53 in magnitude the string form of a number is its decimal
    numeral. *)
Lemma String_safe_integer n :
  Z.abs n < 2 ^ 53 -> String_ (VNum n) = NilZero.string_of_int (Z.to_int n).
Proof.
  intros Hn. cbn [String_]. unfold number_to_string, to_double, double_of_magnitude.
  assert (Z.log2 (Z.abs n) + 1 <= 53) as Hbits.
  { destruct (Z.eq_dec (Z.abs n) 0) as [->|Hne]; [cbn; lia|].
    assert (Z.log2 (Z.abs n) < 53); [|lia].
    apply Z.log2_lt_pow2; lia. }
  destruct (Z.leb_spec (Z.log2 (Z.abs n) + 1) 53); [|lia].
  assert (Z.abs n < 2 ^ 1024)
    by (eapply Z.lt_trans; [exact Hn|]; by apply Z.pow_lt_mono_r).
  destruct (Z.leb_spec (2 ^ 1024) (Z.abs n)); [lia|].
  assert (Z.sgn n * Z.abs n = n) as -> by (rewrite Z.mul_comm; apply Z.abs_sgn).
  by destruct (Z.ltb_spec (Z.abs n) (2 ^ 53)); [|lia].
Qed.

(** ** Lists *)

Lemma filter_sublist {A} (f : A -> bool) (l : list A) :
  List.filter f l `sublist_of` l.
Proof.
  induction l as [|x l IH]; simpl; [constructor|].
  destruct (f x); by constructor.
Qed.

Lemma filter_filter {A} (f g : A -> bool) (l : list A) :
  List.filter g (List.filter f l) = List.filter (fun x => f x && g x) l.
Proof.
  induction l as [|x l IH]; simpl; [reflexivity|].
  destruct (f x); simpl; [destruct (g x)|]; by rewrite IH.
Qed.

Lemma filter_all {A} (f : A -> bool) (l : list A) :
  (forall x, f x = true) -> List.filter f l = l.
Proof.
  intros H. induction l as [|x l IH]; simpl; [reflexivity|].
  by rewrite H, IH.
Qed.

Lemma filter_if {A} (b : bool) (f : A -> bool) (l : list A) :
  (if b then List.filter f l else l) = List.filter (fun x => negb b || f x) l.
Proof. destruct b; simpl; [reflexivity | symmetry; by apply filter_all]. Qed.

Lemma imap_fst_seq {A} (l : list A) (k : nat) :
  imap (fun index x => ((k + index + 1)%nat, x)) l
  = zip (seq (k + 1) (length l)) l.
Proof.
  revert k. induction l as [|x l IH]; intros k; simpl; [reflexivity|].
  f_equal; [f_equal; lia|].
  replace (S (k + 1)) with (S k + 1)%nat by lia.
  rewrite <- (IH (S k)). apply imap_ext. intros i y _. simpl. f_equal. lia.
Qed.

(** ** Ranking *)

Lemma imap_formatEntry_rank data k :
  map rank (imap (fun index => formatEntry (k + index)) data)
  = seq (k + 1) (length data).
Proof.
  revert k. induction data as [|r data IH]; intros k; simpl; [reflexivity|].
  f_equal; [lia|].
  replace (S (k + 1)) with (S k + 1)%nat by lia.
  rewrite <- (IH (S k)). f_equal. apply imap_ext. intros i y _. simpl.
  f_equal. lia.
Qed.

Lemma formatData_rank data :
  map rank (formatData data) = seq 1 (length data).
Proof. exact (imap_formatEntry_rank data 0). Qed.

Lemma formatData_rows data :
  map row_of (formatData data) = data.
Proof.
  unfold formatData.
  change (map row_of (imap formatEntry data)) with (row_of <$> imap formatEntry data).
  rewrite fmap_imap. rewrite <- (list_fmap_id data) at 2.
  rewrite <- (imap_const id). apply imap_ext. intros i [] _. reflexivity.
Qed.

Lemma formatData_lookup data i :
  formatData data !! i = formatEntry i <$> data !! i.
Proof. apply list_lookup_imap. Qed.

Lemma formatData_at_rank data e :
  e ∈ formatData data -> formatData data !! (rank e - 1)%nat = Some e.
Proof.
  intros [i Hi]%list_elem_of_lookup. rewrite <- Hi.
  rewrite formatData_lookup in Hi.
  destruct (data !! i) as [r|]; [|discriminate].
  injection Hi as <-. simpl. f_equal. lia.
Qed.

(** ** View filter *)

Section ViewProperties.

Variable toLowerCase : string -> string.

Lemma applyView_search lb filters searchTerm :
  applyView toLowerCase lb filters searchTerm
  = if truthy searchTerm
    then List.filter (matchesSearch toLowerCase searchTerm) (applyView toLowerCase lb filters "")
    else applyView toLowerCase lb filters "".
Proof. reflexivity. Qed.

Lemma applyView_sublist lb filters searchTerm :
  applyView toLowerCase lb filters searchTerm `sublist_of` lb.
Proof.
  unfold applyView.
  destruct (truthy (cohortType filters)), (truthy (cohortNumber filters)),
    (truthy searchTerm);
    repeat (etrans; [apply filter_sublist|]); reflexivity.
Qed.

Lemma matchesSearch_spec searchTerm e :
  matchesSearch toLowerCase searchTerm e = true <->
  exists field, In field (field_strings e) /\
    substring_of (toLowerCase searchTerm) (toLowerCase field).
Proof.
  unfold matchesSearch. rewrite existsb_exists. split.
  - intros [v [Hin Hv]]. exists (String_ v). split; [|by apply includes_spec].
    change (field_strings e) with (map String_ (Object_values e)).
    by apply in_map.
  - intros [field [Hin Hf]].
    change (field_strings e) with (map String_ (Object_values e)) in Hin.
    apply in_map_iff in Hin as (v & <- & Hin).
    exists v. split; [exact Hin | by apply includes_spec].
Qed.

(** C5. For every ranked dataset and criteria the view holds exactly the
    entries that satisfy all the criteria that are not empty: cohort type
    by equality, cohort number by (case-sensitive) containment, search
    term by containment, up to letter case, in the string form of any one
    of the eight fields (rank, enrollment id, name, e-mail, cohort type,
    cohort number, score, update time); an empty criterion lets every
    entry through.  The view is the dataset filtered by a test that holds
    exactly of those entries, and the string form of a number is, up to
    2^53 in magnitude, its decimal numeral. *)
Theorem applyView_exactly_the_matching filters searchTerm :
  (exists keep : LeaderboardEntry -> bool,
     (forall e, keep e = true <-> Meets toLowerCase filters searchTerm e) /\
     (forall lb, applyView toLowerCase lb filters searchTerm = List.filter keep lb)) /\
  (forall n, Z.abs n < 2 ^ 53 ->
     String_ (VNum n) = NilZero.string_of_int (Z.to_int n)).
Proof.
  split; [|exact String_safe_integer].
  exists (fun e =>
    (negb (truthy (cohortType filters))
     || bool_decide (cohort_type e = cohortType filters)) &&
    (negb (truthy (cohortNumber filters))
     || includes (cohort_number e) (cohortNumber filters)) &&
    (negb (truthy searchTerm) || matchesSearch toLowerCase searchTerm e)).
  split.
  - intros e. unfold Meets.
    rewrite !andb_true_iff, !orb_true_iff, !negb_true_iff, !truthy_false.
    rewrite bool_decide_eq_true, includes_spec, matchesSearch_spec. tauto.
  - intros lb. unfold applyView.
    rewrite !filter_if, !filter_filter.
    apply List.filter_ext. intros a. by rewrite andb_assoc.
Qed.

(** C9. Adding a search term to given criteria never enlarges the view:
    the view with the term is a subsequence of the view without it, and so
    has at most as many entries. *)
Theorem search_never_enlarges_view lb filters searchTerm :
  applyView toLowerCase lb filters searchTerm `sublist_of` applyView toLowerCase lb filters "" /\
  (length (applyView toLowerCase lb filters searchTerm) <= length (applyView toLowerCase lb filters ""))%nat.
Proof.
  assert (applyView toLowerCase lb filters searchTerm `sublist_of` applyView toLowerCase lb filters "") as H.
  { rewrite applyView_search. destruct (truthy searchTerm);
      [apply filter_sublist | reflexivity]. }
  split; [exact H | by apply sublist_length].
Qed.

(** C4 (as the code has it). The filtered view is a subsequence of the
    canonical ranked sequence, in the same order, and every entry in it
    still holds its canonical rank: its [rank] field is its position in
    the canonical sequence.  The rank column of the table, however, does
    not show that field: its rows are numbered 1, 2, ... by position in
    the filtered view. *)
Theorem view_keeps_entries_rows_renumbered data filters searchTerm :
  let canonical := formatData data in
  let view := applyView toLowerCase canonical filters searchTerm in
  view `sublist_of` canonical /\
  Forall (fun e => canonical !! (rank e - 1)%nat = Some e) view /\
  renderRows view = zip (seq 1 (length view)) view.
Proof.
  intros canonical view. split; [apply applyView_sublist|]. split.
  - apply Forall_forall. intros e He. apply formatData_at_rank.
    eapply elem_of_sublist; [exact He | apply applyView_sublist].
  - exact (imap_fst_seq view 0).
Qed.

End ViewProperties.

(** C4, as stated, fails: with the cohort filter [MERN], the only entry
    left is the one ranked 2, and its row shows 1. *)
Lemma filtered_row_shows_position_not_rank :
  let canonical := formatData [row_b 900 "2025-01-01T00:00:00Z";
                               row_a 500 "2025-01-01T00:00:00Z"] in
  let view := applyView lower_ascii canonical (mkFilters "MERN" "") "" in
  ~ shows_canonical_rank (renderRows view).
Proof.
  intros canonical view H.
  apply Forall_inv in H. vm_compute in H. discriminate.
Qed.

(** ** Ranking *)

(** C1 (as the code has it). The ranking step keeps the records in the
    order the store returned them and gives each the dense 1-based rank of
    its position in that order, so that the ranks are exactly 1..N; the
    result is sorted by score descending, ties by ascending update time,
    exactly when the answer of the store was. *)
Theorem formatData_ranks_in_store_order parseDate data :
  map rank (formatData data) = seq 1 (length data) /\
  map row_of (formatData data) = data /\
  is_sorted parseDate (map row_of (formatData data)) = is_sorted parseDate data.
Proof.
  split; [apply formatData_rank|]. split; [apply formatData_rows|].
  by rewrite formatData_rows.
Qed.

(** C1, as stated, fails: a store that answers with the lower score first
    gets that record ranked 1. *)
Lemma unsorted_answer_stays_unsorted :
  ~ ranked_in_query_order parseDate_ex
      [row_a 500 "2025-01-01T00:00:00Z"; row_b 900 "2025-01-02T00:00:00Z"].
Proof. intros [H _]. vm_compute in H. discriminate. Qed.

(** ** Refresh coordination *)

Section Coordinator.

Variable toLowerCase : string -> string.
Variable parseDate : string -> option Z.
Variable toLocaleString : Z -> string.

Ltac open_world w :=
  let c := fresh "c" in
  destruct w as [c ? ? ? ? ? ? ? ? ? ?]; destruct c; simpl in *.

Lemma commit_cells old new :
  same_but_view (cells new) (cells (commit toLowerCase old new)).
Proof.
  unfold commit, same_but_view, filterEffect, stalenessEffect.
  open_world new. destruct mounted0; simpl; [|tauto].
  repeat case_bool_decide; simpl; destruct leaderboard0; simpl; tauto.
Qed.

Lemma commit_runtime old new :
  same_but_timers new (commit toLowerCase old new).
Proof.
  unfold commit, same_but_timers, filterEffect, stalenessEffect.
  open_world new. destruct mounted0; simpl; [|tauto].
  repeat case_bool_decide; simpl; destruct leaderboard0; simpl; tauto.
Qed.

(** An event that stores no new dataset, no new criteria and leaves
    [loading] as it was runs no effect. *)
Lemma commit_idle old new :
  leaderboardRef (cells new) = leaderboardRef (cells old) ->
  filtersRef (cells new) = filtersRef (cells old) ->
  searchTerm (cells new) = searchTerm (cells old) ->
  loading (cells new) = loading (cells old) ->
  leaderboard (cells new) = leaderboard (cells old) ->
  commit toLowerCase old new = new.
Proof.
  intros H1 H2 H3 H4 H5. unfold commit, stalenessDep.
  rewrite H1, H2, H3, H4, H5.
  rewrite !bool_decide_eq_true_2 by reflexivity. simpl.
  by destruct (mounted new).
Qed.

Lemma commit_view_kept old new :
  leaderboardRef (cells new) = leaderboardRef (cells old) ->
  filtersRef (cells new) = filtersRef (cells old) ->
  searchTerm (cells new) = searchTerm (cells old) ->
  filteredLeaderboard (cells (commit toLowerCase old new))
  = filteredLeaderboard (cells new).
Proof.
  intros H1 H2 H3. unfold commit, stalenessEffect.
  rewrite H1, H2, H3.
  rewrite (bool_decide_eq_true_2 (leaderboardRef (cells old) = _)) by reflexivity.
  rewrite (bool_decide_eq_true_2 (filtersRef (cells old) = _)) by reflexivity.
  rewrite (bool_decide_eq_true_2 (searchTerm (cells old) = _)) by reflexivity.
  clear H1 H2 H3. open_world new. destruct mounted0; simpl; [|reflexivity].
  repeat case_bool_decide; simpl; by destruct leaderboard0.
Qed.

Lemma fetchLeaderboard_sends showLoading o w :
  fetchCount (fetchLeaderboard showLoading o w) = S (fetchCount w) /\
  inflight (fetchLeaderboard showLoading o w) = (inflight w ++ [o])%list.
Proof.
  unfold fetchLeaderboard, setLoading, setError, setState.
  open_world w. by destruct mounted0, showLoading.
Qed.

(** A click on Reload while the component is mounted and not loading sends
    one query and turns [loading] on. *)
Lemma reload_sends w :
  mounted w = true -> loading (cells w) = false ->
  let w1 := step toLowerCase parseDate toLocaleString ClickReload w in
  loading (cells w1) = true /\ fetchCount w1 = S (fetchCount w) /\
  inflight w1 = (inflight w ++ [Plain])%list /\ mounted w1 = true.
Proof.
  intros Hm Hl. simpl. rewrite Hm, Hl. simpl.
  destruct (commit_cells w (fetchLeaderboard true Plain w))
    as (_ & _ & _ & _ & _ & -> & _).
  destruct (commit_runtime w (fetchLeaderboard true Plain w))
    as (-> & _ & _ & -> & _ & -> & _).
  destruct (fetchLeaderboard_sends true Plain w) as [-> ->].
  unfold fetchLeaderboard, setLoading, setError, setState.
  open_world w. by subst.
Qed.

(** C7. When a fetch fails, the message of the error (or the fixed text
    for a thrown value that is no [Error]) is stored for display, the
    canonical dataset and the filtered view are what they were, [loading]
    is off, the query is no longer in flight, and a click on Reload
    starts a new fetch. *)
Theorem fetch_failure_keeps_dataset w i o isError message :
  mounted w = true ->
  inflight w !! i = Some o ->
  let w' := step toLowerCase parseDate toLocaleString
              (QueryResolved i (QueryError isError message)) w in
  error (cells w') = (if isError then message else "Failed to fetch leaderboard") /\
  leaderboard (cells w') = leaderboard (cells w) /\
  filteredLeaderboard (cells w') = filteredLeaderboard (cells w) /\
  loading (cells w') = false /\
  inflight w' = delete i (inflight w) /\
  fetchCount (step toLowerCase parseDate toLocaleString ClickReload w')
  = S (fetchCount w').
Proof.
  intros Hm Hi. cbn [step]. rewrite Hi.
  set (w3 := match o with Plain => _ | FromUpdate => _ end).
  assert (error (cells w3) = (if isError then message else "Failed to fetch leaderboard")
          /\ leaderboard (cells w3) = leaderboard (cells w)
          /\ filteredLeaderboard (cells w3) = filteredLeaderboard (cells w)
          /\ loading (cells w3) = false
          /\ inflight w3 = delete i (inflight w)
          /\ leaderboardRef (cells w3) = leaderboardRef (cells w)
          /\ filtersRef (cells w3) = filtersRef (cells w)
          /\ searchTerm (cells w3) = searchTerm (cells w)
          /\ mounted w3 = true) as (He & Hlb & Hfl & Hld & Hin & Hr1 & Hr2 & Hst & Hm3).
  { subst w3. clear Hi. open_world w. subst. by destruct o. }
  set (w' := commit toLowerCase w w3).
  destruct (commit_cells w w3) as (Hc1 & _ & _ & _ & _ & Hc6 & _ & _ & Hc9).
  destruct (commit_runtime w w3) as (Hk1 & _ & _ & Hk4 & _).
  fold w' in Hc1, Hc6, Hc9, Hk1, Hk4.
  rewrite Hc9, Hc1, Hc6, Hk4.
  repeat split; try assumption.
  - subst w'. by rewrite commit_view_kept.
  - rewrite <- Hc6.
    change (fetchCount (step toLowerCase parseDate toLocaleString ClickReload w')
            = S (fetchCount w')).
    apply reload_sends; congruence.
Qed.

(** [fetchLeaderboard] on its own, from the answer on: it stores the
    ranked answer whatever its size, and sets [lastUpdated] only for an
    answer with records. *)
Lemma empty_answer_replaces_dataset_keeps_timestamp w data :
  mounted w = true ->
  let w' := fetchLeaderboard_resume toLocaleString (QueryData data) w in
  leaderboard (cells w') = formatData (default [] data) /\
  match data with
  | Some (_ :: _) => lastUpdated (cells w') = toLocaleString (clock w)
  | _ => leaderboard (cells w') = [] /\ lastUpdated (cells w') = lastUpdated (cells w)
  end.
Proof.
  intros Hm. unfold fetchLeaderboard_resume, setLeaderboard, setLastUpdated,
    setLoading, setState.
  open_world w. subst. by destruct data as [[|r data]|].
Qed.

(** The same seen from the event: the answer to a plain fetch. *)
Lemma plain_fetch_answer w i data :
  mounted w = true ->
  inflight w !! i = Some Plain ->
  let w' := step toLowerCase parseDate toLocaleString
              (QueryResolved i (QueryData data)) w in
  leaderboard (cells w') = formatData (default [] data) /\
  lastUpdated (cells w') =
    match data with
    | Some (_ :: _) => toLocaleString (clock w)
    | _ => lastUpdated (cells w)
    end.
Proof.
  intros Hm Hi. cbn [step]. rewrite Hi.
  set (w1 := set_inflight _ w).
  destruct (commit_cells w (fetchLeaderboard_resume toLocaleString (QueryData data) w1))
    as (-> & _ & _ & _ & _ & _ & _ & -> & _).
  assert (mounted w1 = true) as Hm1 by (subst w1; by open_world w).
  destruct (empty_answer_replaces_dataset_keeps_timestamp w1 data Hm1) as [-> H].
  split; [reflexivity|].
  assert (clock w1 = clock w /\ lastUpdated (cells w1) = lastUpdated (cells w))
    as [<- <-] by (subst w1; by open_world w).
  by destruct data as [[|r data]|]; try destruct H.
Qed.

(** C10 (as the code has it). A successful answer always replaces the
    canonical dataset wholesale by the ranked answer, the empty list for
    an answer without records.  After a fetch on its own (initial load,
    reload, debounced notification) [lastUpdated] is refreshed only when
    the answer has records and is left as it was otherwise; after the
    refetch of an update cycle, line 156 sets [lastUpdated] to the current
    time whatever the answer, empty or not. *)
Theorem answer_sets_dataset_and_timestamp w i o data :
  mounted w = true ->
  inflight w !! i = Some o ->
  let w' := step toLowerCase parseDate toLocaleString
              (QueryResolved i (QueryData data)) w in
  leaderboard (cells w') = formatData (default [] data) /\
  lastUpdated (cells w') =
    match o, data with
    | Plain, Some (_ :: _) => toLocaleString (clock w)
    | Plain, _ => lastUpdated (cells w)
    | FromUpdate, _ => toLocaleString (clock w)
    end.
Proof.
  intros Hm Hi. destruct o; [by apply plain_fetch_answer|].
  cbn [step]. rewrite Hi.
  match goal with |- context [commit _ w ?x] =>
    destruct (commit_cells w x) as (-> & _ & _ & _ & _ & _ & _ & -> & _) end.
  clear Hi. unfold updateXPData_after_fetch, updateXPData_finally,
    fetchLeaderboard_resume, setLeaderboard, setLastUpdated, setLoading,
    setRefreshing, setError, setState.
  open_world w. subst. by destruct data as [[|r data]|].
Qed.

(** The refetch an update cycle awaits ends the cycle, whatever the store
    answers. *)
Lemma update_refetch_clears_refreshing w i q :
  mounted w = true ->
  inflight w !! i = Some FromUpdate ->
  refreshing (cells (step toLowerCase parseDate toLocaleString (QueryResolved i q) w))
  = false.
Proof.
  intros Hm Hi. cbn [step]. rewrite Hi.
  match goal with |- context [commit _ w ?x] =>
    destruct (commit_cells w x) as (_ & _ & _ & _ & _ & _ & -> & _) end.
  clear Hi. unfold updateXPData_after_fetch, updateXPData_finally,
    fetchLeaderboard_resume, setLeaderboard, setLastUpdated, setLoading,
    setRefreshing, setError, setState.
  open_world w. subst. by destruct q as [[[|r data]|]|].
Qed.

(** The outcomes of the job one by one. *)
Lemma update_trigger_cases w j r :
  mounted w = true ->
  jobs w = S j ->
  let w' := step toLowerCase parseDate toLocaleString (JobResolved r) w in
  match job_failure r with
  | Some message =>
      error (cells w') = message /\
      fetchCount w' = fetchCount w /\
      inflight w' = inflight w /\
      leaderboard (cells w') = leaderboard (cells w) /\
      filteredLeaderboard (cells w') = filteredLeaderboard (cells w) /\
      refreshing (cells w') = false
  | None =>
      fetchCount w' = S (fetchCount w) /\
      inflight w' = (inflight w ++ [FromUpdate])%list /\
      leaderboard (cells w') = leaderboard (cells w) /\
      forall q,
        refreshing (cells (step toLowerCase parseDate toLocaleString
                             (QueryResolved (length (inflight w)) q) w')) = false
  end.
Proof.
  intros Hm Hj w'.
  set (w2 := updateXPData_resume r (set_jobs j w)).
  assert (w' = commit toLowerCase w w2) as Hw.
  { subst w' w2. cbn [step]. by rewrite Hj. }
  clearbody w'.
  destruct (commit_cells w w2) as (Hc1 & _ & _ & _ & _ & _ & Hc7 & _ & Hc9).
  destruct (commit_runtime w w2) as (Hk1 & _ & _ & Hk4 & _ & Hk6 & _).
  rewrite <- Hw in Hc1, Hc7, Hc9, Hk1, Hk4, Hk6.
  assert (filteredLeaderboard (cells w') = filteredLeaderboard (cells w2)) as Hfl.
  { rewrite Hw. apply commit_view_kept; subst w2; clear; open_world w;
      destruct r as [? ?|?|[] ?]; by destruct mounted0. }
  clear Hw.
  destruct r as [[] message|status|[] [|c err]]; cbn [job_failure];
    rewrite ?Hc1, ?Hc7, ?Hc9, ?Hk6, ?Hfl.
  1,2,3,6,7: rewrite Hk4; subst w2; clear -Hm; open_world w; subst; by repeat split.
  all: assert (mounted w' = true /\ inflight w' = (inflight w ++ [FromUpdate])%list)
    as [Hm' Hin'] by (rewrite Hk1, Hk4; subst w2; clear -Hm; open_world w; by subst).
  all: split; [|split; [|split]];
    [ subst w2; clear -Hm; open_world w; by subst
    | exact Hin'
    | subst w2; clear -Hm; open_world w; by subst
    | intros q; apply update_refetch_clears_refreshing; [exact Hm'|];
      rewrite Hin'; by rewrite lookup_app_r, Nat.sub_diag ].
Qed.

(** C8. When the job fails (the request is rejected, the response is not
    [ok], or the body reports no success) the update trigger stores an
    error message, sends no query, leaves the canonical dataset and the
    view as they were and turns [refreshing] off.  The message stored for
    a response that is not [ok] and for a body that reports no success is
    never empty: the former names the status in decimal, the latter is the
    error text of the body, or "XP update failed" when it has none.  When
    the job succeeds the trigger sends one query, and [refreshing] goes
    off when that query is answered, whatever the answer. *)
Theorem update_trigger_outcomes w j r :
  mounted w = true ->
  jobs w = S j ->
  let w' := step toLowerCase parseDate toLocaleString (JobResolved r) w in
  match job_failure r with
  | Some message =>
      error (cells w') = message /\
      fetchCount w' = fetchCount w /\
      inflight w' = inflight w /\
      leaderboard (cells w') = leaderboard (cells w) /\
      filteredLeaderboard (cells w') = filteredLeaderboard (cells w) /\
      refreshing (cells w') = false
  | None =>
      fetchCount w' = S (fetchCount w) /\
      inflight w' = (inflight w ++ [FromUpdate])%list /\
      leaderboard (cells w') = leaderboard (cells w) /\
      forall q,
        refreshing (cells (step toLowerCase parseDate toLocaleString
                             (QueryResolved (length (inflight w)) q) w')) = false
  end /\
  match r with
  | JobNotOk status =>
      error (cells w') <> "" /\
      (Z.abs status < 2 ^ 53 ->
       error (cells w')
       = "HTTP error! status: " ++ NilZero.string_of_int (Z.to_int status))
  | JobJson false err =>
      error (cells w') <> "" /\
      (err = "" -> error (cells w') = "XP update failed") /\
      (err <> "" -> error (cells w') = err)
  | _ => True
  end.
Proof.
  intros Hm Hj w'. pose proof (update_trigger_cases w j r Hm Hj) as H.
  fold w' in H. split; [exact H|].
  destruct r as [isError message|status|[] [|c err]]; cbn [job_failure] in H;
    try exact I.
  - destruct H as [-> _]. split; [discriminate|].
    intros Hs. by rewrite String_safe_integer.
  - destruct H as [-> _]. by repeat split.
  - destruct H as [-> _]. by repeat split.
Qed.

(** While [loading] is on, a click on either button and a change
    notification are all ignored. *)
Lemma gated_while_loading w :
  loading (cells w) = true ->
  step toLowerCase parseDate toLocaleString ClickReload w = w /\
  step toLowerCase parseDate toLocaleString ClickRefreshXP w = w /\
  step toLowerCase parseDate toLocaleString Notification w = w.
Proof.
  intros H. cbn [step]. unfold onChange. rewrite H.
  by rewrite orb_true_r, !andb_false_r.
Qed.

(** C3 (as the code has it). A manual refresh turns [loading] on and sends
    one query; until [loading] goes off again a second click on Reload, a
    click on Refresh XP and a change notification start nothing, so two
    manual refreshes issued back to back send exactly one query. *)
Theorem second_manual_refresh_is_ignored w :
  mounted w = true ->
  loading (cells w) = false ->
  let w1 := step toLowerCase parseDate toLocaleString ClickReload w in
  loading (cells w1) = true /\
  fetchCount w1 = S (fetchCount w) /\
  inflight w1 = (inflight w ++ [Plain])%list /\
  step toLowerCase parseDate toLocaleString ClickReload w1 = w1 /\
  step toLowerCase parseDate toLocaleString ClickRefreshXP w1 = w1 /\
  step toLowerCase parseDate toLocaleString Notification w1 = w1.
Proof.
  intros Hm Hl w1.
  destruct (reload_sends w Hm Hl) as (H1 & H2 & H3 & _). fold w1 in H1, H2, H3.
  destruct (gated_while_loading w1 H1) as (H4 & H5 & H6).
  by repeat split.
Qed.

(** *** Timers *)

(** Neither timer callback stores a dataset or criteria or touches
    [loading]: no effect runs after it. *)
Lemma checkAutoUpdate_quiet captured w :
  commit toLowerCase w (checkAutoUpdate parseDate captured w)
  = checkAutoUpdate parseDate captured w.
Proof.
  apply commit_idle; unfold checkAutoUpdate, updateXPData, setRefreshing,
    setError, setState; open_world w;
    by destruct (stale _ _), mounted0.
Qed.

Lemma debounceFired_quiet w :
  commit toLowerCase w (debounceFired w) = debounceFired w.
Proof.
  apply commit_idle; unfold debounceFired, fetchLeaderboard, setError, setState;
    open_world w; by destruct isSubscribed0, mounted0.
Qed.

(** What one round of timers does, by the timer that is due first. *)
Lemma fire_next_effect target w :
  let w' := fire_next toLowerCase parseDate target w in
  isSubscribed w' = isSubscribed w /\
  loading (cells w') = loading (cells w) /\
  match next_timer target w with
  | Some (DebounceT _) =>
      debounceTimer w' = None /\
      stalenessTimer w' = stalenessTimer w /\
      fetchCount w' = (if isSubscribed w then S (fetchCount w) else fetchCount w)
  | Some (StalenessT _ _) =>
      debounceTimer w' = debounceTimer w /\
      stalenessTimer w' = None /\
      fetchCount w' = fetchCount w
  | None => w' = w
  end.
Proof.
  unfold fire_next. destruct (next_timer target w) as [[t|t cap]|]; simpl.
  - rewrite debounceFired_quiet.
    unfold debounceFired, fetchLeaderboard, setError, setState.
    open_world w. by destruct isSubscribed0, mounted0.
  - rewrite checkAutoUpdate_quiet.
    unfold checkAutoUpdate, updateXPData, setRefreshing, setError, setState.
    open_world w. by destruct (stale _ _), mounted0.
  - done.
Qed.

Lemma next_timer_not_debounce target w t :
  debounceTimer w = Some t -> target < t ->
  match next_timer target w with
  | Some (DebounceT _) => False
  | _ => True
  end.
Proof.
  intros H Hlt. unfold next_timer. rewrite H.
  destruct (Z.leb_spec t target); [lia|].
  destruct (stalenessTimer w) as [[t' cap]|]; [|done].
  by destruct (t' <=? target).
Qed.

Lemma next_timer_none target w :
  debounceTimer w = None -> stalenessTimer w = None ->
  next_timer target w = None.
Proof. intros H1 H2. unfold next_timer. by rewrite H1, H2. Qed.

(** A pending debounce timer that is not yet due survives a round. *)
Lemma fire_next_not_due target w t :
  debounceTimer w = Some t -> target < t ->
  let w' := fire_next toLowerCase parseDate target w in
  debounceTimer w' = Some t /\ isSubscribed w' = isSubscribed w /\
  loading (cells w') = loading (cells w) /\ fetchCount w' = fetchCount w.
Proof.
  intros H Hlt w'.
  pose proof (next_timer_not_debounce target w t H Hlt) as Hn.
  destruct (fire_next_effect target w) as (H1 & H2 & H3). fold w' in H1, H2, H3.
  destruct (next_timer target w) as [[?|? ?]|]; [done| |].
  - destruct H3 as (-> & _ & ->). done.
  - rewrite H3. done.
Qed.

Lemma clock_set_clock t w :
  clock (set_clock t w) = t /\ debounceTimer (set_clock t w) = debounceTimer w /\
  isSubscribed (set_clock t w) = isSubscribed w /\
  cells (set_clock t w) = cells w /\ fetchCount (set_clock t w) = fetchCount w.
Proof. by destruct w. Qed.

(** Less time passes than the debounce timer still has to run: it stays
    pending and no query is sent. *)
Lemma advance_short d w t :
  debounceTimer w = Some t -> clock w + Z.of_N d < t ->
  let w' := advance toLowerCase parseDate d w in
  debounceTimer w' = Some t /\ isSubscribed w' = isSubscribed w /\
  loading (cells w') = loading (cells w) /\ fetchCount w' = fetchCount w /\
  clock w' = clock w + Z.of_N d.
Proof.
  intros H Hlt. unfold advance.
  set (target := clock w + Z.of_N d).
  destruct (fire_next_not_due target w t H Hlt) as (A1 & A2 & A3 & A4).
  destruct (fire_next_not_due target _ t A1 Hlt) as (B1 & B2 & B3 & B4).
  destruct (clock_set_clock target
    (fire_next toLowerCase parseDate target
       (fire_next toLowerCase parseDate target w))) as (-> & -> & -> & -> & ->).
  repeat split; congruence.
Qed.

(** The debounce timer is due within the time that passes: its callback
    runs once and, the subscription being live, sends one query. *)
Lemma advance_due d w t :
  isSubscribed w = true ->
  debounceTimer w = Some t -> t <= clock w + Z.of_N d ->
  let w' := advance toLowerCase parseDate d w in
  debounceTimer w' = None /\ fetchCount w' = S (fetchCount w).
Proof.
  intros Hs H Hle. unfold advance.
  set (target := clock w + Z.of_N d).
  set (w1 := fire_next toLowerCase parseDate target w).
  set (w2 := fire_next toLowerCase parseDate target w1).
  destruct (clock_set_clock target w2) as (_ & -> & _ & _ & ->).
  destruct (fire_next_effect target w) as (A1 & A2 & A3). fold w1 in A1, A2, A3.
  destruct (fire_next_effect target w1) as (B1 & B2 & B3). fold w2 in B1, B2, B3.
  unfold next_timer in A3. rewrite H in A3.
  destruct (Z.leb_spec t target) as [_|]; [|lia].
  destruct (stalenessTimer w) as [[t' cap]|] eqn:Hst.
  - destruct (t' <=? target) eqn:Hdue.
    + destruct (t <? t').
      * (* the debounce timer first, then the staleness timer *)
        destruct A3 as (A3 & A4 & A5). rewrite Hs in A5.
        unfold next_timer in B3. rewrite A3, A4, Hdue in B3.
        destruct B3 as (B3 & _ & B5). split; congruence.
      * (* the staleness timer first *)
        destruct A3 as (A3 & A4 & A5).
        unfold next_timer in B3. rewrite A3, A4 in B3.
        destruct (Z.leb_spec t target) as [_|]; [|lia].
        destruct B3 as (B3 & _ & B5). rewrite A1, Hs in B5. split; congruence.
    + destruct A3 as (A3 & A4 & A5). rewrite Hs in A5.
      unfold next_timer in B3. rewrite A3, A4, Hdue in B3.
      rewrite B3. split; congruence.
  - destruct A3 as (A3 & A4 & A5). rewrite Hs in A5.
    unfold next_timer in B3. rewrite A3, A4 in B3.
    rewrite B3. split; congruence.
Qed.

(** With no timer pending, time passes and nothing else happens. *)
Lemma advance_idle d w :
  debounceTimer w = None -> stalenessTimer w = None ->
  advance toLowerCase parseDate d w = set_clock (clock w + Z.of_N d) w.
Proof.
  intros H1 H2. unfold advance, fire_next.
  by rewrite !(next_timer_none _ w H1 H2).
Qed.

(** A notification that finds the subscription live and [loading] off
    sets the debounce timer to two seconds from now, replacing the one
    that was pending. *)
Lemma notification_restarts_timer w :
  isSubscribed w = true -> loading (cells w) = false ->
  let w' := step toLowerCase parseDate toLocaleString Notification w in
  debounceTimer w' = Some (clock w' + 2000) /\ isSubscribed w' = true /\
  loading (cells w') = false /\ fetchCount w' = fetchCount w.
Proof.
  intros Hs Hl. cbn [step]. unfold onChange. rewrite Hs, Hl. simpl.
  open_world w. by subst.
Qed.

(** The state a burst leaves: the timer runs from the last notification
    and no query has been sent. *)
Lemma burst_tail gaps w :
  isSubscribed w = true -> loading (cells w) = false ->
  debounceTimer w = Some (clock w + 2000) ->
  Forall (fun g => (g < 2000)%N) gaps ->
  let w1 := run toLowerCase parseDate toLocaleString
              (flat_map (fun g => [Advance g; Notification]) gaps) w in
  debounceTimer w1 = Some (clock w1 + 2000) /\ isSubscribed w1 = true /\
  loading (cells w1) = false /\ fetchCount w1 = fetchCount w.
Proof.
  intros Hs Hl Ht Hg. revert w Hs Hl Ht.
  induction Hg as [|g gaps Hlt Hg IH]; intros w Hs Hl Ht; [done|].
  simpl.
  destruct (advance_short g w (clock w + 2000) Ht ltac:(lia)) as (A1 & A2 & A3 & A4 & A5).
  set (wa := advance toLowerCase parseDate g w) in *.
  destruct (notification_restarts_timer wa ltac:(congruence) ltac:(congruence))
    as (B1 & B2 & B3 & B4).
  cbn [step] in B1, B2, B3, B4.
  destruct (IH (onChange wa) B2 B3 B1) as (C1 & C2 & C3 & C4).
  repeat split; try assumption. congruence.
Qed.

(** C6 (as the code has it). Change notifications that reach a live
    subscription while [loading] is off, each less than two seconds after
    the one before, restart the one debounce timer every time and send no
    query; the timer then runs from the last of them.  Once two seconds
    have passed without a notification exactly one query is sent and the
    timer is gone, before that none is sent, and none is sent either if
    the component is unmounted before the timer runs out. *)
Theorem burst_collapses_to_one_refetch w gaps d :
  isSubscribed w = true ->
  loading (cells w) = false ->
  Forall (fun g => (g < 2000)%N) gaps ->
  let w1 := run toLowerCase parseDate toLocaleString (burst gaps) w in
  let w2 := step toLowerCase parseDate toLocaleString (Advance d) w1 in
  debounceTimer w1 = Some (clock w1 + 2000) /\
  fetchCount w1 = fetchCount w /\
  fetchCount w2 = (if (d <? 2000)%N then fetchCount w else S (fetchCount w)) /\
  debounceTimer w2 = (if (d <? 2000)%N then Some (clock w1 + 2000) else None) /\
  fetchCount (run toLowerCase parseDate toLocaleString [Unmount; Advance d] w1)
  = fetchCount w.
Proof.
  intros Hs Hl Hg w1 w2.
  destruct (notification_restarts_timer w Hs Hl) as (A1 & A2 & A3 & A4).
  destruct (burst_tail gaps _ A2 A3 A1 Hg) as (B1 & B2 & B3 & B4).
  change (run toLowerCase parseDate toLocaleString _ _) with w1 in B1, B2, B3, B4.
  rewrite A4 in B4.
  split; [exact B1|]. split; [exact B4|].
  assert (fetchCount w2 = (if (d <? 2000)%N then fetchCount w else S (fetchCount w)) /\
          debounceTimer w2 = (if (d <? 2000)%N then Some (clock w1 + 2000) else None))
    as [C1 C2].
  { subst w2. cbn [step]. destruct (N.ltb_spec d 2000).
    - destruct (advance_short d w1 _ B1 ltac:(lia)) as (D1 & _ & _ & D4 & _).
      split; congruence.
    - destruct (advance_due d w1 _ B2 B1 ltac:(lia)) as (D1 & D2).
      split; congruence. }
  split; [exact C1|]. split; [exact C2|].
  cbn [run fold_left step].
  rewrite advance_idle by (by destruct w1).
  rewrite <- B4. by destruct w1.
Qed.

End Coordinator.

(** ** The component on concrete runs *)

(** C3, as stated, fails: the query a debounced notification sent is still
    in flight ([loading] is off: it was sent without the loading
    indicator) when a click on Reload sends a second one. *)
Lemma reload_overlaps_background_fetch :
  ~ (length (inflight (run_ex [Notification; Advance 2000; ClickReload] idle_ex)) <= 1)%nat.
Proof. vm_compute. lia. Qed.

(** C6, as stated, fails: a query is in flight (sent by an earlier
    debounced notification, not yet answered) and a notification followed
    by two seconds of silence sends another all the same. *)
Lemma debounce_fires_during_background_fetch :
  let w := run_ex [Notification; Advance 2000] idle_ex in
  ~ (fetchCount (run_ex (burst [] ++ [Advance 2000]) w) <> fetchCount w ->
     isSubscribed w = true /\ inflight w = []).
Proof.
  intros w H.
  assert (isSubscribed w = true /\ inflight w = []) as [_ Hin].
  { apply H. vm_compute. lia. }
  vm_compute in Hin. discriminate.
Qed.

(** C2. The top entry was last updated on 1 January and the clock reads
    10 January.  Three seconds after the first answer of the store the
    staleness check runs and starts an update cycle.  The job succeeds and
    the refetch brings the same entry with [last_updated] 2 January: the
    dataset was never empty in between, yet the staleness timer is armed
    again, and three seconds later the check runs a second time and starts
    a second update cycle. *)
Theorem staleness_check_runs_again :
  let w1 := run_ex [QueryResolved 0 (QueryData (Some [row_a 900 "2025-01-01T00:00:00Z"]));
                    Advance 3000] (mount_ex jan10) in
  let w2 := run_ex [JobResolved (JobJson true "");
                    QueryResolved 0 (QueryData (Some [row_a 900 "2025-01-02T00:00:00Z"]))] w1 in
  let w3 := step_ex (Advance 3000) w2 in
  (checkCount w1 = 1%nat /\ updateCount w1 = 1%nat) /\
  (leaderboard (cells w1) <> [] /\ leaderboard (cells w2) <> [] /\
   fst <$> stalenessTimer w2 = Some (clock w2 + 3000)) /\
  (checkCount w3 = 2%nat /\ updateCount w3 = 2%nat).
Proof. vm_compute. repeat split; discriminate. Qed.

(** C10, as stated, fails: the refetch of an update cycle is answered
    without records, five seconds after the dataset was loaded; the
    dataset becomes empty and [lastUpdated] is refreshed all the same. *)
Lemma update_refetch_stamps_empty_answer :
  let w := run_ex [QueryResolved 0 (QueryData (Some [row_a 900 "2025-01-09T01:00:00Z"]));
                   ClickRefreshXP; JobResolved (JobJson true ""); Advance 5000]
             (mount_ex jan10) in
  let w' := step_ex (QueryResolved 0 (QueryData (Some []))) w in
  (inflight w = [FromUpdate] /\ leaderboard (cells w) <> [] /\
   lastUpdated (cells w) = "1736467200000") /\
  (leaderboard (cells w') = [] /\ lastUpdated (cells w') = "1736467205000") /\
  ~ (leaderboard (cells w') = [] /\ lastUpdated (cells w') = lastUpdated (cells w)).
Proof.
  intros w w'. split; [by vm_compute|]. split; [by vm_compute|].
  intros [_ H]. vm_compute in H. discriminate.
Qed.

(** The threshold of the check: an entry updated 23 hours before the
    mount is left alone, one updated nine days before starts an update
    cycle; either way the check has run once, three seconds after the
    answer and not before. *)
Lemma staleness_threshold :
  let fresh := run_ex [QueryResolved 0 (QueryData (Some [row_a 900 "2025-01-09T01:00:00Z"]))]
                 (mount_ex jan10) in
  let old := run_ex [QueryResolved 0 (QueryData (Some [row_a 900 "2025-01-01T00:00:00Z"]))]
               (mount_ex jan10) in
  (checkCount (step_ex (Advance 2999) fresh) = 0%nat /\
   checkCount (step_ex (Advance 3000) fresh) = 1%nat /\
   updateCount (step_ex (Advance 3000) fresh) = 0%nat) /\
  (checkCount (step_ex (Advance 2999) old) = 0%nat /\
   checkCount (step_ex (Advance 3000) old) = 1%nat /\
   updateCount (step_ex (Advance 3000) old) = 1%nat).
Proof. vm_compute. repeat split. Qed.

(** *** Instances *)

Lemma search_in_score_witness :
  Z.abs 900 < 2 ^ 53 /\ String_ (VNum 900) = "900".
Proof.
  split; [reflexivity|].
  exact (proj2 (applyView_exactly_the_matching lower_ascii (mkFilters "" "") "90")
           900 eq_refl).
Defined.

Lemma fetch_failure_witness :
  let w := mount_ex jan10 in
  mounted w = true /\ inflight w !! 0%nat = Some Plain /\
  error (cells (step_ex (QueryResolved 0 (QueryError true "connection lost") ) w))
  = "connection lost".
Proof.
  intros w. split; [reflexivity|]. split; [reflexivity|].
  exact (proj1 (fetch_failure_keeps_dataset lower_ascii parseDate_ex toLocaleString_ex
                  w 0 Plain true "connection lost" eq_refl eq_refl)).
Defined.

Lemma plain_empty_answer_witness :
  let w := run_ex [QueryResolved 0 (QueryData (Some [row_a 900 "2025-01-09T01:00:00Z"]));
                   Advance 1000; ClickReload] (mount_ex jan10) in
  let w' := step_ex (QueryResolved 0 (QueryData (Some []))) w in
  mounted w = true /\ inflight w !! 0%nat = Some Plain /\
  (leaderboard (cells w) <> [] /\ lastUpdated (cells w) = "1736467200000" /\
   clock w = 1736467201000) /\
  leaderboard (cells w') = [] /\ lastUpdated (cells w') = "1736467200000".
Proof.
  intros w w'. split; [reflexivity|]. split; [reflexivity|].
  split; [by vm_compute|].
  exact (answer_sets_dataset_and_timestamp lower_ascii parseDate_ex toLocaleString_ex
           w 0 Plain (Some []) eq_refl eq_refl).
Defined.

Lemma update_failure_witness :
  let w := step_ex ClickRefreshXP idle_ex in
  let w1 := step_ex (JobResolved (JobJson false "")) w in
  let w2 := step_ex (JobResolved (JobNotOk 500)) w in
  mounted w = true /\ jobs w = 1%nat /\
  (error (cells w1) = "XP update failed" /\ fetchCount w1 = fetchCount w /\
   refreshing (cells w) = true /\ refreshing (cells w1) = false) /\
  error (cells w2) = "HTTP error! status: 500".
Proof.
  intros w w1 w2. split; [reflexivity|]. split; [reflexivity|].
  pose proof (update_trigger_outcomes lower_ascii parseDate_ex toLocaleString_ex
                w 0 (JobJson false "") eq_refl eq_refl) as [(_ & H2 & _ & _ & _ & H6) (_ & H8 & _)].
  pose proof (update_trigger_outcomes lower_ascii parseDate_ex toLocaleString_ex
                w 0 (JobNotOk 500) eq_refl eq_refl) as [_ (_ & H9)].
  split; [exact (conj (H8 eq_refl) (conj H2 (conj eq_refl H6)))|].
  exact (H9 eq_refl).
Defined.

Lemma second_manual_refresh_witness :
  let w1 := step_ex ClickReload idle_ex in
  mounted idle_ex = true /\ loading (cells idle_ex) = false /\
  fetchCount w1 = S (fetchCount idle_ex) /\ step_ex ClickReload w1 = w1.
Proof.
  intros w1. split; [reflexivity|]. split; [reflexivity|].
  pose proof (second_manual_refresh_is_ignored lower_ascii parseDate_ex toLocaleString_ex
                idle_ex eq_refl eq_refl) as (_ & H2 & _ & H4 & _).
  exact (conj H2 H4).
Defined.

Lemma burst_witness :
  let w1 := run_ex (burst [500; 700]%N) idle_ex in
  isSubscribed idle_ex = true /\ loading (cells idle_ex) = false /\
  Forall (fun g => (g < 2000)%N) [500; 700]%N /\
  fetchCount w1 = fetchCount idle_ex /\
  fetchCount (step_ex (Advance 2000) w1) = S (fetchCount idle_ex).
Proof.
  intros w1.
  assert (Forall (fun g => (g < 2000)%N) [500; 700]%N) as Hg
    by (repeat constructor).
  split; [reflexivity|]. split; [reflexivity|]. split; [exact Hg|].
  pose proof (burst_collapses_to_one_refetch lower_ascii parseDate_ex toLocaleString_ex
                idle_ex [500; 700]%N 2000 eq_refl eq_refl Hg) as (_ & H2 & H3 & _).
  exact (conj H2 H3).
Defined.

(** * Further properties of the component *)

(** ** The view and the table *)

Section ViewAndTable.

Variable toLowerCase : string -> string.
Variable parseDate : string -> option Z.

Lemma applyView_filter lb filters searchTerm :
  applyView toLowerCase lb filters searchTerm
  = List.filter
      (fun e =>
         (negb (truthy (cohortType filters))
          || bool_decide (cohort_type e = cohortType filters)) &&
         ((negb (truthy (cohortNumber filters))
           || includes (cohort_number e) (cohortNumber filters)) &&
          (negb (truthy searchTerm) || matchesSearch toLowerCase searchTerm e)))
      lb.
Proof. unfold applyView. by rewrite !filter_if, !filter_filter. Qed.

(** X1. Narrowing a view that is already narrowed: the order in which two sets
    of criteria are applied does not matter, and applying the same
    criteria twice changes nothing. *)
Theorem applyView_commutes_and_is_idempotent lb f1 s1 f2 s2 :
  applyView toLowerCase (applyView toLowerCase lb f1 s1) f2 s2
  = applyView toLowerCase (applyView toLowerCase lb f2 s2) f1 s1 /\
  applyView toLowerCase (applyView toLowerCase lb f1 s1) f1 s1
  = applyView toLowerCase lb f1 s1.
Proof.
  split.
  - rewrite (applyView_filter _ f2 s2), (applyView_filter lb f1 s1).
    rewrite (applyView_filter _ f1 s1), (applyView_filter lb f2 s2).
    rewrite !filter_filter. apply List.filter_ext. intros a. apply andb_comm.
  - rewrite (applyView_filter _ f1 s1), (applyView_filter lb f1 s1).
    rewrite filter_filter. apply List.filter_ext. intros a. apply andb_diag.
Qed.

(** With every criterion empty the view is the whole dataset. *)
Lemma applyView_no_criteria lb : applyView toLowerCase lb (mkFilters "" "") "" = lb.
Proof. reflexivity. Qed.

Lemma sublist_rank_lower_bound data k (view : list LeaderboardEntry) :
  view `sublist_of` imap (fun index => formatEntry (k + index)) data ->
  forall j e, view !! j = Some e -> (k + j + 1 <= rank e)%nat.
Proof.
  revert k view. induction data as [|r data IH]; intros k view Hsub j e Hj.
  - apply sublist_nil_r in Hsub. subst. discriminate.
  - rewrite imap_cons in Hsub.
    assert (forall view', view' `sublist_of` imap ((fun index => formatEntry (k + index)) ∘ S) data
              -> forall j', view' !! j' = Some e -> (S k + j' + 1 <= rank e)%nat) as IH'.
    { intros view' Hs j' Hj'. apply (IH (S k) view'); [|exact Hj'].
      erewrite imap_ext; [exact Hs|]. intros i x _. simpl. f_equal. lia. }
    apply sublist_cons_r in Hsub as [Hsub | (view' & -> & Hsub)].
    + specialize (IH' view Hsub j Hj). lia.
    + destruct j as [|j]; simpl in Hj.
      * injection Hj as <-. simpl. lia.
      * specialize (IH' view' Hsub j Hj). lia.
Qed.

(** X2. The number a row of the table shows is never larger than the canonical
    rank of its entry, and with no criteria set it is that rank. *)
Theorem shown_number_at_most_canonical_rank data filters searchTerm :
  Forall (fun row => (fst row <= rank (snd row))%nat)
         (renderRows (applyView toLowerCase (formatData data) filters searchTerm)) /\
  shows_canonical_rank
    (renderRows (applyView toLowerCase (formatData data) (mkFilters "" "") "")).
Proof.
  assert (forall view, view `sublist_of` formatData data ->
            Forall (fun row => (fst row <= rank (snd row))%nat) (renderRows view)) as H.
  { intros view Hsub. apply Forall_forall. intros [n e] Hin.
    apply elem_of_lookup_imap_1 in Hin as (j & e' & Heq & Hj).
    injection Heq as -> ->. simpl.
    pose proof (sublist_rank_lower_bound data 0 view Hsub j e' Hj). lia. }
  split; [apply H, applyView_sublist|].
  rewrite applyView_no_criteria. unfold shows_canonical_rank.
  apply Forall_forall. intros [n e] Hin.
  apply elem_of_lookup_imap_1 in Hin as (j & e' & Heq & Hj).
  injection Heq as -> ->. simpl.
  rewrite formatData_lookup in Hj.
  destruct (data !! j); [|discriminate]. injection Hj as <-. reflexivity.
Qed.

(** *** Query order *)

Lemma precedes_trans a b c : precedes parseDate a b -> precedes parseDate b c -> precedes parseDate a c.
Proof.
  unfold precedes, in_order, updated_le.
  rewrite !orb_true_iff, !andb_true_iff, !Z.ltb_lt, !Z.eqb_eq.
  destruct (parseDate (row_last_updated a)), (parseDate (row_last_updated b)),
    (parseDate (row_last_updated c));
    rewrite ?Z.leb_le; intros [?|[? ?]] [?|[? ?]];
    try discriminate; try (left; lia); right; split; (lia || done).
Qed.

Lemma precedes_xp a b : precedes parseDate a b -> row_xp b <= row_xp a.
Proof.
  unfold precedes, in_order.
  rewrite orb_true_iff, andb_true_iff, Z.ltb_lt, Z.eqb_eq. lia.
Qed.

Lemma is_sorted_strongly l :
  is_sorted parseDate l = true <-> StronglySorted (precedes parseDate) l.
Proof.
  induction l as [|a l IH]; [split; [constructor | reflexivity]|].
  cbn [is_sorted]. destruct l as [|b l].
  - split; [repeat constructor | reflexivity].
  - rewrite andb_true_iff, IH. split.
    + intros [Hab Hs]. constructor; [exact Hs|].
      apply StronglySorted_inv in Hs as [_ Hb].
      constructor; [exact Hab|].
      eapply Forall_impl; [exact Hb|]. intros c Hc.
      by apply (precedes_trans a b c).
    + intros Hs. apply StronglySorted_inv in Hs as [Hs Ha].
      split; [by apply Forall_inv in Ha | exact Hs].
Qed.

Lemma StronglySorted_sublist {A} (R : A -> A -> Prop) (l1 l2 : list A) :
  l1 `sublist_of` l2 -> StronglySorted R l2 -> StronglySorted R l1.
Proof.
  induction 1 as [|x l1 l2 Hsub IH|x l1 l2 Hsub IH]; intros Hs.
  - constructor.
  - apply StronglySorted_inv in Hs as [Hs Hx]. constructor; [by apply IH|].
    apply Forall_forall. intros y Hy.
    rewrite Forall_forall in Hx. apply Hx. by eapply elem_of_sublist.
  - apply StronglySorted_inv in Hs as [Hs _]. by apply IH.
Qed.

Lemma view_rows_sorted data filters searchTerm :
  is_sorted parseDate data = true ->
  StronglySorted (precedes parseDate)
    (map row_of (applyView toLowerCase (formatData data) filters searchTerm)).
Proof.
  intros Hs. apply is_sorted_strongly in Hs.
  eapply StronglySorted_sublist; [|exact Hs].
  rewrite <- (formatData_rows data) at 2.
  apply fmap_sublist, applyView_sublist.
Qed.

(** X3. When the store answers in the order of the query, every filtered view
    is in that order too: score descending, ties by ascending update
    time. *)
Theorem view_stays_in_query_order data filters searchTerm :
  is_sorted parseDate data = true ->
  is_sorted parseDate
    (map row_of (applyView toLowerCase (formatData data) filters searchTerm)) = true.
Proof. intros Hs. by apply is_sorted_strongly, view_rows_sorted. Qed.

End ViewAndTable.

(** ** The stats cards and the decoration of the rows *)

Lemma sumXP_exact l acc lo hi :
  0 <= lo -> 0 <= acc ->
  Forall (fun e => lo <= xp e <= hi) l ->
  acc + Z.of_nat (length l) * hi < 2 ^ 53 ->
  exists s,
    fold_left (fun sum entry => plus sum (Number_of (xp entry))) l (Finite acc)
    = Finite s /\
    acc + Z.of_nat (length l) * lo <= s <= acc + Z.of_nat (length l) * hi.
Proof.
  intros Hlo Hacc Hl. revert acc Hacc.
  induction Hl as [|e l He Hl IH]; intros acc Hacc Hb.
  - exists acc. simpl. split; [reflexivity|lia].
  - cbn [length] in Hb. cbn [fold_left plus].
    assert (0 <= Z.of_nat (length l) * hi) by nia.
    unfold Number_of at 2. rewrite to_double_safe by lia. cbn [plus].
    unfold Number_of at 2. rewrite to_double_safe by lia.
    destruct (IH (acc + xp e) ltac:(lia) ltac:(lia)) as (s & Hs & Hbs).
    exists s. split; [exact Hs|]. cbn [length]. lia.
Qed.

(** X4. When no score in the view is negative and the length of the view
    times an upper bound of the scores stays below 2^52, the average the
    stats card computes in doubles, [Math.round(sum / length)], is a
    finite number between any lower bound and that upper bound of the
    scores; the card has no average exactly when the view is empty. *)
Theorem avgXP_within_bounds view lo hi :
  0 <= lo ->
  Forall (fun e => lo <= xp e <= hi) view ->
  Z.of_nat (length view) * hi < 2 ^ 52 ->
  match avgXP view with
  | Some (Finite avg) => lo <= avg <= hi
  | Some _ => False
  | None => view = []
  end.
Proof.
  intros Hlo Hv Hb. destruct view as [|e l]; [reflexivity|].
  cbn [avgXP]. unfold sumXP.
  set (n := Z.of_nat (length (e :: l))) in *.
  assert (0 < n) as Hn by (subst n; cbn [length]; lia).
  destruct (sumXP_exact (e :: l) 0 lo hi Hlo ltac:(lia) Hv ltac:(fold n; lia))
    as (s & -> & Hs).
  fold n in Hs.
  rewrite round_quotient_exact; [| nia | lia | ].
  - clear Hb. clearbody n. split.
    + apply Z.div_le_lower_bound; nia.
    + apply Z.lt_succ_r, Z.div_lt_upper_bound; [lia|].
      replace (2 * n * Z.succ hi) with (2 * (n * hi) + 2 * n)
        by (unfold Z.succ; ring).
      lia.
  - destruct (Z.eq_dec s 0); [by left|right].
    clearbody n. assert (0 < hi) by nia.
    assert (n * 1 <= n * hi) by (apply Z.mul_le_mono_nonneg_l; lia). lia.
Qed.

(** X5. When the store answers in the order of the query, the "Top XP"
    card of any view shows the highest score in that view; the card has
    no figure exactly when the view is empty. *)
Theorem topXP_is_highest toLowerCase parseDate data filters searchTerm :
  is_sorted parseDate data = true ->
  let view := applyView toLowerCase (formatData data) filters searchTerm in
  match topXP view with
  | Some top => Forall (fun e => xp e <= top) view
  | None => view = []
  end.
Proof.
  intros Hs view.
  pose proof (view_rows_sorted toLowerCase parseDate data filters searchTerm Hs) as Hv.
  fold view in Hv. destruct view as [|e l]; [done|].
  cbn [topXP]. constructor; [lia|]. simpl in Hv.
  apply StronglySorted_inv in Hv as [_ Hv].
  apply Forall_forall. intros e' He'.
  rewrite Forall_forall in Hv.
  apply (precedes_xp parseDate (row_of e) (row_of e')), Hv.
  change (map row_of l) with (row_of <$> l). by apply list_elem_of_fmap_2.
Qed.

Lemma trophies_after_podium {A B} (f : nat -> A -> B * Icon * A) (l : list A) :
  (forall i e, snd (fst (f i e)) = Trophy) ->
  map (fun r => snd (fst r)) (imap f l) = replicate (length l) Trophy.
Proof.
  revert f. induction l as [|x l IH]; intros f Hf; simpl; [reflexivity|].
  rewrite Hf. f_equal. apply IH. intros i e. apply Hf.
Qed.

(** X6. The crown, the medal and the award go to the first, second and third
    row of the table as displayed, every later row gets the trophy, and
    the rows show the entries of the view in order: the decoration follows
    the position in the view, not the rank of the entry. *)
Theorem podium_follows_position view :
  map (fun r => snd (fst r)) (decorateRows view)
  = (take (length view) [Crown; Medal; Award]
     ++ replicate (length view - 3) Trophy)%list /\
  map snd (decorateRows view) = view.
Proof.
  split.
  - destruct view as [|a [|b [|c rest]]]; try reflexivity.
    unfold decorateRows. rewrite !imap_cons.
    cbn [map length take Nat.sub fst snd getRankIcon Nat.add].
    rewrite take_nil, Nat.sub_0_r. cbn [app]. do 3 f_equal.
    apply trophies_after_podium. intros i e. simpl.
    by rewrite Nat.add_1_r.
  - unfold decorateRows.
    change (map snd ?l) with (snd <$> l). rewrite fmap_imap.
    rewrite <- (list_fmap_id view) at 2. rewrite <- (imap_const id).
    by apply imap_ext.
Qed.

(** ** Reachable states *)

Section Reachable.

Variable toLowerCase : string -> string.
Variable parseDate : string -> option Z.
Variable toLocaleString : Z -> string.

Ltac open_world w :=
  let c := fresh "c" in
  destruct w as [c ? ? ? ? ? ? ? ? ? ?]; destruct c; simpl in *.

(** What the effects store, for a mounted component. *)
Lemma commit_effects old new :
  mounted new = true ->
  let w := commit toLowerCase old new in
  filteredLeaderboard (cells w)
  = (if bool_decide (leaderboardRef (cells old) = leaderboardRef (cells new)) &&
        bool_decide (filtersRef (cells old) = filtersRef (cells new)) &&
        bool_decide (searchTerm (cells old) = searchTerm (cells new))
     then filteredLeaderboard (cells new)
     else applyView toLowerCase (leaderboard (cells new)) (filters (cells new))
            (searchTerm (cells new))) /\
  debounceTimer w
  = (if bool_decide (loading (cells old) = loading (cells new))
     then debounceTimer new else None) /\
  stalenessTimer w
  = (if bool_decide (stalenessDep (cells old) = stalenessDep (cells new))
     then stalenessTimer new
     else match leaderboard (cells new) with
          | [] => None
          | _ :: _ => Some (clock new + 3000, leaderboard (cells new))
          end).
Proof.
  intros Hm. unfold commit, filterEffect, stalenessEffect, setFilteredLeaderboard,
    setState. rewrite Hm. simpl.
  destruct (_ && _ && _), (bool_decide (loading _ = _)),
    (bool_decide (stalenessDep _ = _)); open_world new; subst;
    by destruct leaderboard0.
Qed.

Lemma commit_inv old new :
  Inv toLowerCase old -> handled old new -> Inv toLowerCase (commit toLowerCase old new).
Proof.
  intros [I1 I2 I3 I4 I5 I6] (H1 & H2 & H3 & H4 & H5 & H6 & H7 & H8 & H9).
  destruct (mounted new) eqn:Hm.
  - destruct (commit_effects old new Hm) as (E1 & E2 & E3).
    destruct (commit_cells toLowerCase parseDate toLocaleString old new)
      as (C1 & _ & C3 & _ & C5 & C6 & _).
    destruct (commit_runtime toLowerCase parseDate toLocaleString old new) as (R1 & _ & R3 & _).
    set (w := commit toLowerCase old new) in *.
    constructor.
    + clear E2 E3. rewrite E1, C1, C3, C5. clear E1.
      repeat case_bool_decide; simpl; try reflexivity.
      rewrite H5, I1, H6, H8 by congruence. congruence.
    + rewrite C1. auto.
    + congruence.
    + clear E1 E3. intros Hl. rewrite E2. clear E2.
      case_bool_decide; [|reflexivity].
      rewrite H3. apply I4. congruence.
    + intros Hw. congruence.
    + clear E1 E2. intros t captured Hst. rewrite C1. rewrite E3 in Hst.
      clear E3. case_bool_decide as Hdep.
      * rewrite H4 in Hst. destruct (I6 _ _ Hst) as [? ->].
        split; [assumption|]. exact Hdep.
      * destruct (leaderboard (cells new)); [discriminate|].
        injection Hst as <- <-. by split.
  - assert (commit toLowerCase old new = new) as ->
      by (unfold commit; by rewrite Hm).
    assert (mounted old = false) as Hmo by congruence.
    specialize (H9 Hmo). destruct (I5 Hmo) as [D1 D2].
    constructor; rewrite ?H9; try assumption; try congruence.
    intros _. split; congruence.
Qed.

Ltac unfold_handlers :=
  unfold handled, fetchLeaderboard, fetchLeaderboard_resume, updateXPData,
    updateXPData_resume, updateXPData_after_fetch, updateXPData_catch,
    updateXPData_finally, checkAutoUpdate, debounceFired, count_check,
    send_query, send_job, setLeaderboard, setFilters, setSearchTerm, setLoading,
    setRefreshing, setLastUpdated, setError, setState.

Ltac handled_tac :=
  repeat split; simpl; try reflexivity;
  try (intros; (lia || congruence));
  try (intros _; eexists; reflexivity).

Lemma handled_fetchLeaderboard showLoading o w :
  handled w (fetchLeaderboard showLoading o w).
Proof. unfold_handlers. open_world w. destruct mounted0, showLoading; handled_tac. Qed.

Lemma handled_updateXPData w : handled w (updateXPData w).
Proof. unfold_handlers. open_world w. destruct mounted0; handled_tac. Qed.

Lemma handled_query_answer w i o r :
  handled w
    (match o with
     | Plain =>
         fetchLeaderboard_resume toLocaleString r (set_inflight (delete i (inflight w)) w)
     | FromUpdate =>
         updateXPData_after_fetch toLocaleString
           (fetchLeaderboard_resume toLocaleString r
              (set_inflight (delete i (inflight w)) w))
     end).
Proof.
  unfold_handlers. open_world w.
  destruct mounted0, o, r as [[[|row data]|]|isError message]; handled_tac.
Qed.

Lemma handled_job_answer w j r :
  handled w (updateXPData_resume r (set_jobs j w)).
Proof.
  unfold_handlers. open_world w.
  destruct mounted0, r as [isError message|status|[] err]; handled_tac.
Qed.

Lemma handled_setFilters upd w : handled w (setFilters upd w).
Proof. unfold_handlers. open_world w. destruct mounted0; handled_tac. Qed.

Lemma handled_setSearchTerm v w : handled w (setSearchTerm v w).
Proof. unfold_handlers. open_world w. destruct mounted0; handled_tac. Qed.

Lemma handled_debounceFired w : handled w (debounceFired w).
Proof.
  unfold_handlers. open_world w. destruct mounted0, isSubscribed0; handled_tac.
Qed.

Lemma handled_checkAutoUpdate captured w :
  handled w (checkAutoUpdate parseDate captured w).
Proof.
  unfold_handlers. open_world w.
  destruct mounted0, (stale _ _); handled_tac.
Qed.

Lemma inv_set_clock t w : Inv toLowerCase w -> Inv toLowerCase (set_clock t w).
Proof. intros [? ? ? ? ? ?]. destruct w. by constructor. Qed.

Lemma inv_clear_debounce w :
  Inv toLowerCase w -> Inv toLowerCase (set_debounceTimer None w).
Proof.
  intros [? ? ? ? I5 ?]. destruct w. constructor; simpl in *; try done.
  intros Hm. by destruct (I5 Hm).
Qed.

Lemma inv_clear_staleness w :
  Inv toLowerCase w -> Inv toLowerCase (set_stalenessTimer None w).
Proof.
  intros [? ? ? ? I5 ?]. destruct w. constructor; simpl in *; try done.
  intros Hm. by destruct (I5 Hm).
Qed.

Lemma inv_onChange w : Inv toLowerCase w -> Inv toLowerCase (onChange w).
Proof.
  intros I. unfold onChange.
  destruct (isSubscribed w) eqn:Hs, (loading (cells w)) eqn:Hl; simpl; try exact I.
  destruct I as [? ? I3 ? ? ?]. destruct w. simpl in *.
  constructor; simpl; try done; intros; congruence.
Qed.

Lemma inv_unmount w : Inv toLowerCase w -> Inv toLowerCase (unmount w).
Proof.
  intros [? ? ? ? ? ?]. destruct w. constructor; simpl in *; done.
Qed.

Lemma inv_fire_next target w :
  Inv toLowerCase w -> Inv toLowerCase (fire_next toLowerCase parseDate target w).
Proof.
  intros I. unfold fire_next.
  destruct (next_timer target w) as [[t|t captured]|]; [| |exact I].
  - apply commit_inv; [|apply handled_debounceFired].
    by apply inv_set_clock, inv_clear_debounce.
  - apply commit_inv; [|apply handled_checkAutoUpdate].
    by apply inv_set_clock, inv_clear_staleness.
Qed.

Lemma inv_step e w :
  Inv toLowerCase w -> Inv toLowerCase (step toLowerCase parseDate toLocaleString e w).
Proof.
  intros I. destruct e as [| | |d|i r|r|v|v|v|]; cbn [step].
  - destruct (_ && _); [|exact I].
    by apply commit_inv, handled_fetchLeaderboard.
  - destruct (_ && _); [|exact I].
    by apply commit_inv, handled_updateXPData.
  - by apply inv_onChange.
  - unfold advance. by apply inv_set_clock, inv_fire_next, inv_fire_next.
  - destruct (inflight w !! i) as [o|]; [|exact I].
    by apply commit_inv, handled_query_answer.
  - destruct (jobs w) as [|j]; [exact I|].
    by apply commit_inv, handled_job_answer.
  - by apply commit_inv, handled_setFilters.
  - by apply commit_inv, handled_setFilters.
  - by apply commit_inv, handled_setSearchTerm.
  - by apply inv_unmount.
Qed.

Lemma inv_mount t0 : Inv toLowerCase (mount toLowerCase t0).
Proof.
  constructor; simpl; try done.
  by exists [].
Qed.

Lemma inv_run events w :
  Inv toLowerCase w ->
  Inv toLowerCase (run toLowerCase parseDate toLocaleString events w).
Proof.
  revert w. induction events as [|e events IH]; intros w I; [exact I|].
  simpl. by apply IH, inv_step.
Qed.

Lemma inv_reachable t0 events :
  Inv toLowerCase
    (run toLowerCase parseDate toLocaleString events (mount toLowerCase t0)).
Proof. apply inv_run, inv_mount. Qed.

(** The effects of [step] are those of [commit] after the callback. *)
Lemma step_callback e w new :
  callback toLocaleString e w = Some new ->
  step toLowerCase parseDate toLocaleString e w = commit toLowerCase w new.
Proof.
  destruct e; cbn [callback step]; try discriminate.
  - destruct (_ && _); [|discriminate]. by intros [= <-].
  - destruct (_ && _); [|discriminate]. by intros [= <-].
  - destruct (inflight w !! i); [|discriminate]. by intros [= <-].
  - destruct (jobs w); [discriminate|]. by intros [= <-].
  - by intros [= <-].
  - by intros [= <-].
  - by intros [= <-].
Qed.

Lemma handled_callback e w new :
  callback toLocaleString e w = Some new -> handled w new.
Proof.
  destruct e; cbn [callback]; try discriminate.
  - destruct (_ && _); [|discriminate]. intros [= <-]. apply handled_fetchLeaderboard.
  - destruct (_ && _); [|discriminate]. intros [= <-]. apply handled_updateXPData.
  - destruct (inflight w !! i); [|discriminate]. intros [= <-].
    apply handled_query_answer.
  - destruct (jobs w); [discriminate|]. intros [= <-]. apply handled_job_answer.
  - intros [= <-]. apply handled_setFilters.
  - intros [= <-]. apply handled_setFilters.
  - intros [= <-]. apply handled_setSearchTerm.
Qed.

(** X7. In every settled state the component reaches, that is once the
    effects of the last event have run, the filtered view is the canonical
    dataset under the current criteria and search term.  In the render
    React commits before the filter effect runs, the view is not yet
    recomputed: it is still the one of the state before the event, the
    dataset of before under the criteria of before. *)
Theorem view_always_current t0 events :
  let w := run toLowerCase parseDate toLocaleString events (mount toLowerCase t0) in
  filteredLeaderboard (cells w)
  = applyView toLowerCase (leaderboard (cells w)) (filters (cells w))
      (searchTerm (cells w)) /\
  forall e,
    match callback toLocaleString e w with
    | Some new =>
        filteredLeaderboard (cells new)
        = applyView toLowerCase (leaderboard (cells w)) (filters (cells w))
            (searchTerm (cells w)) /\
        step toLowerCase parseDate toLocaleString e w = commit toLowerCase w new
    | None => True
    end.
Proof.
  intros w. pose proof (inv_view _ _ (inv_reachable t0 events)) as I1. fold w in I1.
  split; [exact I1|]. intros e.
  destruct (callback toLocaleString e w) as [new|] eqn:Hc; [|exact I].
  split; [|by apply step_callback].
  destruct (handled_callback e w new Hc) as (_ & _ & _ & _ & -> & _). exact I1.
Qed.

(** X8. In every state the component reaches, the canonical dataset carries
    the ranks 1..N in order. *)
Theorem ranks_always_dense t0 events :
  let w := run toLowerCase parseDate toLocaleString events (mount toLowerCase t0) in
  map rank (leaderboard (cells w)) = seq 1 (length (leaderboard (cells w))).
Proof.
  intros w. destruct (inv_ranked _ _ (inv_reachable t0 events)) as [data Hd].
  fold w in Hd. rewrite Hd, formatData_rank. unfold formatData.
  by rewrite length_imap.
Qed.

(** X9. In every state the component reaches, the subscription is live exactly
    while the component is mounted, no debounce timer is pending while the
    loading indicator is on, and no timer at all is pending once the
    component is unmounted. *)
Theorem timers_follow_loading_and_mount t0 events :
  let w := run toLowerCase parseDate toLocaleString events (mount toLowerCase t0) in
  isSubscribed w = mounted w /\
  (loading (cells w) = false \/ debounceTimer w = None) /\
  (mounted w = true \/ (debounceTimer w = None /\ stalenessTimer w = None)).
Proof.
  intros w. destruct (inv_reachable t0 events) as [_ _ I3 I4 I5 _]. fold w in I3, I4, I5.
  split; [exact I3|]. split.
  - destruct (loading (cells w)); [right; by apply I4 | by left].
  - destruct (mounted w); [by left | right; by apply I5].
Qed.

(** X10. In every state the component reaches, a pending staleness check holds
    a dataset that is not empty and whose top entry has the timestamp of
    the entry now on top: the check judges the age of the current top
    entry. *)
Theorem pending_check_sees_top_entry t0 events :
  let w := run toLowerCase parseDate toLocaleString events (mount toLowerCase t0) in
  match stalenessTimer w with
  | Some (_, captured) =>
      captured <> [] /\ topStamp captured = topStamp (leaderboard (cells w))
  | None => True
  end.
Proof.
  intros w. destruct (inv_reachable t0 events) as [_ _ _ _ _ I6]. fold w in I6.
  destruct (stalenessTimer w) as [[t captured]|]; [by eapply I6 | done].
Qed.

(** X11. Every render shows at least one block below the header,
    whatever the cells hold.  In every settled state the component
    reaches, that is once the effects of the last event have run, of the
    loading animation, the table, the empty state and the "no results"
    state at most one is shown.  Any other render, such as the one React
    commits before the filter effect has recomputed the view, shows at
    most two of them. *)
Theorem one_main_panel t0 events :
  let w := run toLowerCase parseDate toLocaleString events (mount toLowerCase t0) in
  (length (List.filter is_main (render (cells w))) <= 1)%nat /\
  forall c : Cells,
    render c <> [] /\
    (length (List.filter is_main (render c)) <= 2)%nat.
Proof.
  intros w. split.
  - pose proof (inv_view _ _ (inv_reachable t0 events)) as I1. fold w in I1.
    assert (leaderboard (cells w) = [] -> filteredLeaderboard (cells w) = []) as He.
    { intros Hl. rewrite I1, Hl. apply sublist_nil_r, applyView_sublist. }
    unfold render, show, nonempty. clear I1.
    destruct (cells w) as [lb ? fl ? ? ? ld ? ? er]. simpl in *.
    destruct lb; [rewrite He by reflexivity|];
      destruct ld, fl, (truthy er); simpl; lia.
  - intros c. unfold render, show, nonempty.
    destruct c as [lb ? fl ? ? ? ld ? ? er]. simpl.
    destruct lb, ld, fl, (truthy er); simpl; split; (discriminate || lia).
Qed.

End Reachable.

(** ** Single events *)

Section Events.

Variable toLowerCase : string -> string.
Variable parseDate : string -> option Z.
Variable toLocaleString : Z -> string.

Ltac open_world w :=
  let c := fresh "c" in
  destruct w as [c ? ? ? ? ? ? ? ? ? ?]; destruct c; simpl in *.

Ltac unfold_handlers :=
  unfold fetchLeaderboard, fetchLeaderboard_resume, updateXPData,
    updateXPData_resume, updateXPData_after_fetch, updateXPData_catch,
    updateXPData_finally, checkAutoUpdate, debounceFired, count_check,
    send_query, send_job, setLeaderboard, setFilters, setSearchTerm, setLoading,
    setRefreshing, setLastUpdated, setError, setState.

(** X13. Any answer of the store, to whichever query and whether data or an
    error, turns the loading indicator off and takes that one query out of
    flight; the others stay in flight and none is sent. *)
Theorem any_answer_turns_loading_off w i o r :
  mounted w = true ->
  inflight w !! i = Some o ->
  let w' := step toLowerCase parseDate toLocaleString (QueryResolved i r) w in
  loading (cells w') = false /\
  inflight w' = delete i (inflight w) /\
  fetchCount w' = fetchCount w.
Proof.
  intros Hm Hi w'. subst w'. cbn [step]. rewrite Hi.
  match goal with |- context [commit _ w ?x] =>
    destruct (commit_cells toLowerCase parseDate toLocaleString w x)
      as (_ & _ & _ & _ & _ & -> & _);
    destruct (commit_runtime toLowerCase parseDate toLocaleString w x)
      as (_ & _ & _ & -> & _ & -> & _) end.
  clear Hi. unfold_handlers. open_world w. subst.
  by destruct o, r as [[[|row data]|]|isError message].
Qed.

(** X14. The refetch of an update cycle stamps [lastUpdated] with the current
    time whatever the store answers, records or none or an error, and
    ends the cycle. *)
Theorem update_cycle_stamps_lastUpdated w i r :
  mounted w = true ->
  inflight w !! i = Some FromUpdate ->
  let w' := step toLowerCase parseDate toLocaleString (QueryResolved i r) w in
  lastUpdated (cells w') = toLocaleString (clock w) /\
  refreshing (cells w') = false.
Proof.
  intros Hm Hi w'. subst w'. cbn [step]. rewrite Hi.
  match goal with |- context [commit _ w ?x] =>
    destruct (commit_cells toLowerCase parseDate toLocaleString w x)
      as (_ & _ & _ & _ & _ & _ & -> & -> & _) end.
  clear Hi. unfold_handlers. open_world w. subst.
  by destruct r as [[[|row data]|]|isError message].
Qed.

(** X15. What an answer with data does to the staleness check: when the top
    entry of the new dataset carries the timestamp the old top entry had
    (or both datasets are empty), a pending check is neither cancelled nor
    restarted; otherwise the pending check is cancelled and, unless the new
    dataset is empty, a new one is due three seconds from now. *)
Theorem answer_rearms_staleness_check w i o data :
  mounted w = true ->
  inflight w !! i = Some o ->
  let w' := step toLowerCase parseDate toLocaleString
              (QueryResolved i (QueryData data)) w in
  let ranked := formatData (default [] data) in
  stalenessTimer w'
  = if bool_decide (topStamp (leaderboard (cells w)) = topStamp ranked)
    then stalenessTimer w
    else match ranked with
         | [] => None
         | _ :: _ => Some (clock w + 3000, ranked)
         end.
Proof.
  intros Hm Hi w' ranked. subst w'. cbn [step]. rewrite Hi.
  set (w3 := match o with Plain => _ | FromUpdate => _ end).
  assert (mounted w3 = true /\ leaderboard (cells w3) = ranked /\
          stalenessTimer w3 = stalenessTimer w /\ clock w3 = clock w)
    as (Hm3 & Hl & Hs & Hc).
  { subst w3 ranked. clear Hi. unfold_handlers. open_world w. subst.
    by destruct o, data as [[|row data]|]. }
  destruct (commit_effects toLowerCase w w3 Hm3)
    as (_ & _ & ->).
  unfold stalenessDep. rewrite Hl, Hs, Hc. reflexivity.
Qed.

Lemma stale_a_day_old now e rest :
  stale now (lastUpdate_of parseDate (e :: rest)) = true
  <-> a_day_old parseDate now e.
Proof.
  unfold a_day_old, lastUpdate_of, stale.
  destruct (truthy (last_updated e)) eqn:Ht.
  - assert (last_updated e <> "") as Hne
      by (intros Heq; apply truthy_false in Heq; congruence).
    destruct (parseDate (last_updated e)) as [t0|].
    + rewrite Z.leb_le. split.
      * intros H. right. exists t0. repeat split; [done|lia].
      * intros [[? _]|(t1 & _ & [= <-] & H)]; [done|lia].
    + split; [discriminate|]. intros [[? _]|(t1 & _ & ? & _)]; done.
  - apply truthy_false in Ht. rewrite Z.leb_le. split.
    + intros H. left. split; [done|lia].
    + intros [[_ H]|(t1 & ? & _)]; [lia|done].
Qed.

(** X16. When the staleness timer comes due (and no debounce timer is pending)
    the check runs once and is gone.  It starts an update cycle, sending
    one request to the job, exactly when the top entry it holds is a day
    old at that moment: an entry with no timestamp counts from the epoch,
    one whose timestamp does not parse never triggers. *)
Theorem staleness_check_decides_by_age w d t e rest :
  stalenessTimer w = Some (t, e :: rest) ->
  debounceTimer w = None ->
  t <= clock w + Z.of_N d ->
  let w' := step toLowerCase parseDate toLocaleString (Advance d) w in
  checkCount w' = S (checkCount w) /\
  stalenessTimer w' = None /\
  ((updateCount w' = S (updateCount w) /\ jobs w' = S (jobs w)) \/
   (updateCount w' = updateCount w /\ jobs w' = jobs w)) /\
  (updateCount w' = S (updateCount w)
   <-> a_day_old parseDate (Z.max (clock w) t) e).
Proof.
  intros Hst Hdb Hdue w'. subst w'. cbn [step]. unfold advance.
  set (target := clock w + Z.of_N d).
  assert (fire_next toLowerCase parseDate target w
          = checkAutoUpdate parseDate (e :: rest)
              (set_clock (Z.max (clock w) t) (set_stalenessTimer None w))) as ->.
  { unfold fire_next, next_timer. rewrite Hst, Hdb.
    destruct (Z.leb_spec t target); [|lia].
    apply (checkAutoUpdate_quiet toLowerCase parseDate). }
  set (w2 := checkAutoUpdate _ _ _).
  assert (fire_next toLowerCase parseDate target w2 = w2) as ->.
  { unfold fire_next. rewrite next_timer_none; [done| |].
    all: subst w2; clear Hst; unfold_handlers; open_world w; subst;
      by destruct (stale _ _), mounted0. }
  rewrite <- (stale_a_day_old _ e rest).
  subst w2. unfold checkAutoUpdate.
  assert (clock (count_check (set_clock (Z.max (clock w) t)
                                (set_stalenessTimer None w)))
          = Z.max (clock w) t) as -> by (by destruct w).
  destruct (stale _ _); clear Hst Hdb; unfold_handlers; open_world w;
    destruct mounted0; simpl; repeat split; auto; try lia; try discriminate.
Qed.

Lemma next_timer_no_debounce target w :
  debounceTimer w = None ->
  match next_timer target w with
  | Some (DebounceT _) => False
  | _ => True
  end.
Proof.
  intros H. unfold next_timer. rewrite H.
  destruct (stalenessTimer w) as [[t cap]|]; [|done].
  by destruct (t <=? target).
Qed.

Lemma fire_next_no_debounce target w :
  debounceTimer w = None ->
  let w' := fire_next toLowerCase parseDate target w in
  debounceTimer w' = None /\ fetchCount w' = fetchCount w.
Proof.
  intros H w'. pose proof (next_timer_no_debounce target w H) as Hn.
  destruct (fire_next_effect toLowerCase parseDate target w)
    as (_ & _ & H3). fold w' in H3.
  destruct (next_timer target w) as [[?|? ?]|]; [done| |].
  - destruct H3 as (-> & _ & ->). done.
  - by rewrite H3.
Qed.

(** With no debounce timer pending, the passing of time sends no query. *)
Lemma advance_no_debounce d w :
  debounceTimer w = None ->
  let w' := advance toLowerCase parseDate d w in
  debounceTimer w' = None /\ fetchCount w' = fetchCount w.
Proof.
  intros H. unfold advance. set (target := clock w + Z.of_N d).
  destruct (fire_next_no_debounce target w H) as [A1 A2].
  destruct (fire_next_no_debounce target _ A1) as [B1 B2].
  destruct (clock_set_clock target
    (fire_next toLowerCase parseDate target
       (fire_next toLowerCase parseDate target w))) as (_ & -> & _ & _ & ->).
  split; congruence.
Qed.

(** X17. A click on Reload absorbs the change notifications that came before
    it: the pending debounce timer is cancelled, and however much time
    then passes, the one query of the reload is the only one sent. *)
Theorem reload_absorbs_notification w d :
  mounted w = true ->
  isSubscribed w = true ->
  loading (cells w) = false ->
  let w1 := run toLowerCase parseDate toLocaleString [Notification; ClickReload] w in
  debounceTimer (step toLowerCase parseDate toLocaleString Notification w)
  = Some (clock w + 2000) /\
  debounceTimer w1 = None /\
  fetchCount w1 = S (fetchCount w) /\
  fetchCount (step toLowerCase parseDate toLocaleString (Advance d) w1)
  = S (fetchCount w).
Proof.
  intros Hm Hs Hl w1.
  assert (debounceTimer (step toLowerCase parseDate toLocaleString Notification w)
          = Some (clock w + 2000)) as Hn.
  { cbn [step]. unfold onChange. rewrite Hs, Hl. by destruct w. }
  assert (debounceTimer w1 = None /\ fetchCount w1 = S (fetchCount w)) as [H1 H2].
  { subst w1. cbn [run fold_left step]. unfold onChange. rewrite Hs, Hl. simpl.
    set (wn := set_debounceTimer _ w).
    assert (mounted wn = true /\ loading (cells wn) = false /\
            fetchCount wn = fetchCount w) as (-> & Hl' & <-)
      by (subst wn; by destruct w).
    rewrite Hl'. simpl.
    assert (mounted (fetchLeaderboard true Plain wn) = true /\
            loading (cells (fetchLeaderboard true Plain wn)) = true) as [Hm2 Hl2].
    { subst wn. clear Hn. unfold_handlers. open_world w. by subst. }
    destruct (commit_effects toLowerCase wn _ Hm2)
      as (_ & -> & _).
    destruct (commit_runtime toLowerCase parseDate toLocaleString wn
                (fetchLeaderboard true Plain wn)) as (_ & _ & _ & _ & _ & -> & _).
    rewrite Hl', Hl2. split; [reflexivity|].
    apply fetchLeaderboard_sends. }
  split; [exact Hn|]. split; [exact H1|]. split; [exact H2|].
  cbn [step]. destruct (advance_no_debounce d w1 H1) as [_ ->]. exact H2.
Qed.

(** X18. An edit of the filter form stores the new criteria and recomputes the
    view from the dataset it has: it sends nothing, and leaves the
    dataset, the loading indicator, the error and both timers alone. *)
Theorem criteria_edit_is_local w e f st :
  mounted w = true ->
  filteredLeaderboard (cells w)
  = applyView toLowerCase (leaderboard (cells w)) (filters (cells w))
      (searchTerm (cells w)) ->
  criteria_after e (cells w) = Some (f, st) ->
  let w' := step toLowerCase parseDate toLocaleString e w in
  filters (cells w') = f /\ searchTerm (cells w') = st /\
  filteredLeaderboard (cells w') = applyView toLowerCase (leaderboard (cells w)) f st /\
  leaderboard (cells w') = leaderboard (cells w) /\
  loading (cells w') = loading (cells w) /\
  error (cells w') = error (cells w) /\
  fetchCount w' = fetchCount w /\ inflight w' = inflight w /\ jobs w' = jobs w /\
  debounceTimer w' = debounceTimer w /\ stalenessTimer w' = stalenessTimer w.
Proof.
  intros Hm Hv He w'.
  assert (exists new, w' = commit toLowerCase w new /\ mounted new = true /\
            filters (cells new) = f /\ searchTerm (cells new) = st /\
            filteredLeaderboard (cells new) = filteredLeaderboard (cells w) /\
            leaderboard (cells new) = leaderboard (cells w) /\
            leaderboardRef (cells new) = leaderboardRef (cells w) /\
            (filtersRef (cells new) = filtersRef (cells w) -> f = filters (cells w)) /\
            loading (cells new) = loading (cells w) /\
            error (cells new) = error (cells w) /\
            fetchCount new = fetchCount w /\ inflight new = inflight w /\
            jobs new = jobs w /\ debounceTimer new = debounceTimer w /\
            stalenessTimer new = stalenessTimer w)
    as (new & -> & Hm' & N1 & N2 & N3 & N4 & N5 & N6 & N7 & N8 & N9 & N10 & N11 & N12 & N13).
  { subst w'. destruct e; try discriminate; injection He as <- <-;
      eexists; (split; [reflexivity|]);
      unfold setFilters, setSearchTerm, setState; clear Hv; open_world w; subst;
      repeat split; simpl; intros; lia. }
  destruct (commit_effects toLowerCase w new Hm') as (E1 & E2 & E3).
  destruct (commit_cells toLowerCase parseDate toLocaleString w new)
    as (C1 & _ & C3 & _ & C5 & C6 & _ & _ & C9).
  destruct (commit_runtime toLowerCase parseDate toLocaleString w new)
    as (_ & _ & _ & R4 & R5 & R6 & _).
  rewrite C1, C3, C5, C6, C9, R4, R5, R6.
  repeat split; try congruence.
  - rewrite E1. clear E2 E3.
    repeat case_bool_decide; simpl; try (rewrite N4, N1, N2; reflexivity).
    assert (f = filters (cells w)) as -> by (apply N6; congruence).
    rewrite N3, Hv, <- N2. congruence.
  - rewrite E2. rewrite bool_decide_eq_true_2 by congruence. congruence.
  - rewrite E3. unfold stalenessDep. rewrite N4.
    rewrite bool_decide_eq_true_2 by reflexivity. congruence.
Qed.

(** X19. "Clear All Filters" empties both criteria and the search term and
    makes the view the whole canonical dataset, without sending anything;
    the "no results" state is not shown afterwards. *)
Theorem clearAllFilters_shows_everything w :
  mounted w = true ->
  let w' := clearAllFilters toLowerCase w in
  filters (cells w') = mkFilters "" "" /\ searchTerm (cells w') = "" /\
  filteredLeaderboard (cells w') = leaderboard (cells w) /\
  leaderboard (cells w') = leaderboard (cells w) /\
  fetchCount w' = fetchCount w /\
  ~ In NoResults (render (cells w')).
Proof.
  intros Hm w'. unfold clearAllFilters in w'.
  set (new := setSearchTerm "" (setFilters (fun _ => mkFilters "" "") w)) in *.
  assert (mounted new = true /\ filters (cells new) = mkFilters "" "" /\
          searchTerm (cells new) = "" /\ leaderboard (cells new) = leaderboard (cells w) /\
          filtersRef (cells new) = S (filtersRef (cells w)) /\
          fetchCount new = fetchCount w) as (Hm' & N1 & N2 & N3 & N4 & N5).
  { subst new. unfold setFilters, setSearchTerm, setState. open_world w. by subst. }
  destruct (commit_effects toLowerCase w new Hm') as (E1 & _ & _).
  destruct (commit_cells toLowerCase parseDate toLocaleString w new)
    as (C1 & _ & C3 & _ & C5 & _).
  destruct (commit_runtime toLowerCase parseDate toLocaleString w new)
    as (_ & _ & _ & _ & _ & R6 & _).
  fold w' in E1, C1, C3, C5, R6.
  assert (filteredLeaderboard (cells w') = leaderboard (cells w)) as Hv.
  { rewrite E1, N4, N1, N2, N3.
    rewrite (bool_decide_eq_false_2 (filtersRef (cells w) = _)) by lia.
    by rewrite andb_false_r. }
  repeat split; try congruence.
  unfold render, show, nonempty. rewrite Hv, C1, N3.
  destruct (loading (cells w')), (leaderboard (cells w)), (truthy (error (cells w')));
    simpl; intuition discriminate.
Qed.

Lemma torn_down_step c0 n e w :
  torn_down c0 n w ->
  torn_down c0 n (step toLowerCase parseDate toLocaleString e w) /\
  (fetchCount w <= fetchCount (step toLowerCase parseDate toLocaleString e w))%nat.
Proof.
  intros (Hm & Hs & Hd & Hst & Hc & Hn). unfold torn_down.
  destruct e as [| | |d|i r|r|v|v|v|]; cbn [step].
  - rewrite Hm. simpl. by repeat split.
  - rewrite Hm. simpl. by repeat split.
  - unfold onChange. rewrite Hs. simpl. by repeat split.
  - rewrite advance_idle by assumption. destruct w. simpl in *. by repeat split.
  - destruct (inflight w !! i) as [o|]; [|by repeat split].
    unfold commit, updateXPData_after_fetch, updateXPData_finally,
      fetchLeaderboard_resume, setLeaderboard, setLastUpdated, setLoading,
      setRefreshing, setError, setState.
    destruct w. simpl in *. subst.
    destruct o, r as [[[|row data]|]|isError message]; simpl; by repeat split.
  - destruct (jobs w) as [|j] eqn:Hj; [repeat split; try done; lia|].
    unfold commit, updateXPData_resume, updateXPData_catch, updateXPData_finally,
      fetchLeaderboard, send_query, setRefreshing, setError, setState.
    destruct w. simpl in *. subst.
    destruct r as [isError message|status|[] err]; simpl; repeat split; lia.
  - unfold commit, setFilters, setState. destruct w. simpl in *. subst. by repeat split.
  - unfold commit, setFilters, setState. destruct w. simpl in *. subst. by repeat split.
  - unfold commit, setSearchTerm, setState. destruct w. simpl in *. subst. by repeat split.
  - destruct w. simpl in *. subst. by repeat split.
Qed.

Lemma torn_down_run c0 n events w :
  torn_down c0 n w ->
  torn_down c0 n (run toLowerCase parseDate toLocaleString events w) /\
  (fetchCount w <= fetchCount (run toLowerCase parseDate toLocaleString events w))%nat.
Proof.
  revert w. induction events as [|e events IH]; intros w H; [by split|].
  simpl. destruct (torn_down_step c0 n e w H) as [H1 H2].
  destruct (IH _ H1) as [H3 H4]. split; [exact H3|lia].
Qed.

(** X12. After the component is unmounted nothing it shows changes any more and
    no timer is ever pending, whatever happens next: clicks, notifications
    and the passing of time do nothing at all, and the only queries still
    sent are the refetches of update cycles that were waiting for the job
    at the time, at most one for each. *)
Theorem nothing_after_unmount w events :
  let w' := run toLowerCase parseDate toLocaleString (Unmount :: events) w in
  cells w' = cells w /\
  debounceTimer w' = None /\ stalenessTimer w' = None /\
  (fetchCount w <= fetchCount w' <= fetchCount w + jobs w)%nat.
Proof.
  intros w'. subst w'. cbn [run fold_left]. 
  change (fold_left _ events ?x)
    with (run toLowerCase parseDate toLocaleString events x).
  assert (torn_down (cells w) (fetchCount w + jobs w)
            (step toLowerCase parseDate toLocaleString Unmount w)) as H
    by (destruct w; by repeat split).
  destruct (torn_down_run _ _ events _ H) as [(_ & _ & Hd & Hs & Hc & Hn) Hle].
  assert (fetchCount (step toLowerCase parseDate toLocaleString Unmount w)
          = fetchCount w) as Hf by (by destruct w).
  repeat split; try assumption; lia.
Qed.

End Events.

(** *** Instances *)

Lemma view_order_witness :
  let data := [row_b 900 "2025-01-01T00:00:00Z"; row_a 500 "2025-01-02T00:00:00Z";
               row_b 500 "2025-01-09T01:00:00Z"] in
  is_sorted parseDate_ex data = true /\
  is_sorted parseDate_ex
    (map row_of (applyView lower_ascii (formatData data) (mkFilters "" "") "50")) = true.
Proof.
  intros data. split; [reflexivity|].
  exact (view_stays_in_query_order lower_ascii parseDate_ex data
           (mkFilters "" "") "50" eq_refl).
Defined.

Lemma topXP_witness :
  let data := [row_b 900 "2025-01-01T00:00:00Z"; row_a 500 "2025-01-02T00:00:00Z";
               row_b 500 "2025-01-09T01:00:00Z"] in
  let view := applyView lower_ascii (formatData data) (mkFilters "" "") "50" in
  is_sorted parseDate_ex data = true /\
  topXP view = Some 500 /\
  match topXP view with
  | Some top => Forall (fun e => xp e <= top) view
  | None => view = []
  end.
Proof.
  intros data view. split; [reflexivity|]. split; [reflexivity|].
  exact (topXP_is_highest lower_ascii parseDate_ex data (mkFilters "" "") "50" eq_refl).
Defined.

Lemma avgXP_witness :
  let view := formatData [row_b 900 "2025-01-01T00:00:00Z";
                          row_a 501 "2025-01-02T00:00:00Z"] in
  0 <= 501 /\
  Forall (fun e => 501 <= xp e <= 900) view /\
  Z.of_nat (length view) * 900 < 2 ^ 52 /\
  avgXP view = Some (Finite 701) /\
  match avgXP view with
  | Some (Finite avg) => 501 <= avg <= 900
  | Some _ => False
  | None => view = []
  end.
Proof.
  intros view.
  assert (0 <= 501) as H0 by lia.
  assert (Forall (fun e => 501 <= xp e <= 900) view) as H
    by (repeat constructor; simpl; lia).
  assert (Z.of_nat (length view) * 900 < 2 ^ 52) as Hb by reflexivity.
  split; [exact H0|]. split; [exact H|]. split; [exact Hb|].
  split; [by vm_compute|].
  exact (avgXP_within_bounds view 501 900 H0 H Hb).
Defined.

Lemma any_answer_witness :
  let w := run_ex [Notification; Advance 2000; ClickReload] idle_ex in
  let w' := step_ex (QueryResolved 0 (QueryData (Some []))) w in
  mounted w = true /\ inflight w !! 0%nat = Some Plain /\
  loading (cells w') = false /\ inflight w' = [Plain].
Proof.
  intros w w'. split; [reflexivity|]. split; [reflexivity|].
  pose proof (any_answer_turns_loading_off lower_ascii parseDate_ex toLocaleString_ex
                w 0 Plain (QueryData (Some [])) eq_refl eq_refl) as (H1 & H2 & _).
  exact (conj H1 H2).
Defined.

Lemma update_stamp_witness :
  let w := run_ex [ClickRefreshXP; JobResolved (JobJson true ""); Advance 5000] idle_ex in
  let w' := step_ex (QueryResolved 0 (QueryError true "timeout")) w in
  mounted w = true /\ inflight w !! 0%nat = Some FromUpdate /\
  lastUpdated (cells w') = toLocaleString_ex (clock w) /\
  refreshing (cells w') = false.
Proof.
  intros w w'. split; [reflexivity|]. split; [reflexivity|].
  exact (update_cycle_stamps_lastUpdated lower_ascii parseDate_ex toLocaleString_ex
           w 0 (QueryError true "timeout") eq_refl eq_refl).
Defined.

Lemma rearm_witness :
  let w := run_ex [QueryResolved 0 (QueryData (Some [row_a 900 "2025-01-09T01:00:00Z"]));
                   Advance 1000; ClickReload] (mount_ex jan10) in
  let data := Some [row_a 950 "2025-01-02T00:00:00Z"] in
  let w' := step_ex (QueryResolved 0 (QueryData data)) w in
  mounted w = true /\ inflight w !! 0%nat = Some Plain /\
  stalenessTimer w' = Some (clock w + 3000, formatData (default [] data)).
Proof.
  intros w data w'. split; [reflexivity|]. split; [reflexivity|].
  exact (answer_rearms_staleness_check lower_ascii parseDate_ex toLocaleString_ex
           w 0 Plain data eq_refl eq_refl).
Defined.

Lemma staleness_decision_witness :
  let w := run_ex [QueryResolved 0 (QueryData (Some [row_a 900 "2025-01-01T00:00:00Z"]))]
             (mount_ex jan10) in
  let e := formatEntry 0 (row_a 900 "2025-01-01T00:00:00Z") in
  let w' := step_ex (Advance 3000) w in
  stalenessTimer w = Some (jan10 + 3000, [e]) /\
  debounceTimer w = None /\
  jan10 + 3000 <= clock w + Z.of_N 3000 /\
  checkCount w' = S (checkCount w) /\
  (updateCount w' = S (updateCount w)
   <-> a_day_old parseDate_ex (Z.max (clock w) (jan10 + 3000)) e).
Proof.
  intros w e w'.
  assert (jan10 + 3000 <= clock w + Z.of_N 3000) as Hdue by (vm_compute; discriminate).
  split; [reflexivity|]. split; [reflexivity|]. split; [exact Hdue|].
  pose proof (staleness_check_decides_by_age lower_ascii parseDate_ex toLocaleString_ex
                w 3000 (jan10 + 3000) e [] eq_refl eq_refl Hdue) as (H1 & _ & _ & H4).
  exact (conj H1 H4).
Defined.

Lemma reload_absorbs_witness :
  let w1 := run_ex [Notification; ClickReload] idle_ex in
  mounted idle_ex = true /\ isSubscribed idle_ex = true /\
  loading (cells idle_ex) = false /\
  debounceTimer w1 = None /\
  fetchCount (step_ex (Advance 60000) w1) = S (fetchCount idle_ex).
Proof.
  intros w1. split; [reflexivity|]. split; [reflexivity|]. split; [reflexivity|].
  pose proof (reload_absorbs_notification lower_ascii parseDate_ex toLocaleString_ex
                idle_ex 60000 eq_refl eq_refl eq_refl) as (_ & H2 & _ & H4).
  exact (conj H2 H4).
Defined.

Lemma criteria_edit_witness :
  let w := run_ex [QueryResolved 0 (QueryData (Some [row_b 900 "2025-01-09T01:00:00Z";
                                                      row_a 500 "2025-01-09T01:00:00Z"]))]
             (mount_ex jan10) in
  let w' := step_ex (ChangeCohortType "MERN") w in
  mounted w = true /\
  filteredLeaderboard (cells w)
  = applyView lower_ascii (leaderboard (cells w)) (filters (cells w)) (searchTerm (cells w)) /\
  criteria_after (ChangeCohortType "MERN") (cells w) = Some (mkFilters "MERN" "", "") /\
  filteredLeaderboard (cells w')
  = applyView lower_ascii (leaderboard (cells w)) (mkFilters "MERN" "") "" /\
  fetchCount w' = fetchCount w.
Proof.
  intros w w'. split; [reflexivity|]. split; [reflexivity|]. split; [reflexivity|].
  pose proof (criteria_edit_is_local lower_ascii parseDate_ex toLocaleString_ex
                w (ChangeCohortType "MERN") (mkFilters "MERN" "") ""
                eq_refl eq_refl eq_refl) as (_ & _ & H3 & _ & _ & _ & H7 & _).
  exact (conj H3 H7).
Defined.

Lemma clearAllFilters_witness :
  let w := run_ex [QueryResolved 0 (QueryData (Some [row_b 900 "2025-01-09T01:00:00Z"]));
                   ChangeSearch "zzz"] (mount_ex jan10) in
  let w' := clearAllFilters lower_ascii w in
  mounted w = true /\
  In NoResults (render (cells w)) /\
  filteredLeaderboard (cells w') = leaderboard (cells w) /\
  ~ In NoResults (render (cells w')).
Proof.
  intros w w'. split; [reflexivity|].
  split; [vm_compute; tauto|].
  pose proof (clearAllFilters_shows_everything lower_ascii parseDate_ex toLocaleString_ex
                w eq_refl) as (_ & _ & H3 & _ & _ & H6).
  exact (conj H3 H6).
Defined.

(** The render between the callback and the filter effect can show two
    blocks at once: the store answers a reload without records, the
    dataset is empty, the view still holds the entry of before, and both
    the table and the empty state are rendered; once the effect has run
    only the empty state is. *)
Lemma stale_render_shows_table_and_empty_state :
  let w := run_ex [QueryResolved 0 (QueryData (Some [row_a 900 "2025-01-09T01:00:00Z"]));
                   ClickReload] (mount_ex jan10) in
  let e := QueryResolved 0 (QueryData (Some [])) in
  (render <$> (cells <$> callback toLocaleString_ex e w))
  = Some [StatsCards; LeaderboardTable; EmptyState] /\
  render (cells (step_ex e w)) = [EmptyState].
Proof. vm_compute. by split. Qed.

(** Beyond the safe integers the sum is rounded at every addition and the
    average leaves the range of the scores: ten entries of
    9007199254740998 XP average to 9007199254740996, ten of
    9007199254741002 to 9007199254741004. *)
Lemma avgXP_leaves_range_of_large_scores :
  let view x := formatData (repeat (row_a x "2025-01-09T01:00:00Z") 10) in
  avgXP (view 9007199254740998) = Some (Finite 9007199254740996) /\
  avgXP (view 9007199254741002) = Some (Finite 9007199254741004).
Proof. by vm_compute. Qed.
